(** * dnszoneinfo.py: from a saved Namecheap DNS payload to zone-file lines

    The script decodes a JSON file ([json.loads]), walks the decoded value
    with [parse_dns_info] and prints one tab-separated line per record.
    The development below embeds the decoded value as the interpreter
    builds it (dict, list, str, int, float, bool, None), the handful of
    interpreter operations the script applies to it ([in], subscript,
    [len], iteration, truth value, [str]), [parse_dns_info] line by line,
    and the [try]/[except] of the script's entry point. *)

From Stdlib Require Import ZArith String Ascii List Bool Lia DecimalString.
From Stdlib Require DecimalFacts DecimalPos.
From stdpp Require Import base option list strings gmap.

Local Open Scope string_scope.
Local Open Scope list_scope.
Local Set Warnings "-register-all".

(** ** Exceptions and the error monad *)

(** The exception classes the script can meet.  [KeyError arg] is raised
    with one argument (a missing key, or the message of line 72),
    [PyException msg] is the bare [Exception(msg)] of line 75. *)
Inductive exn : Type :=
| KeyError (arg : string)
| TypeError (msg : string)
| PyException (msg : string)
| OSError (msg : string)
| JSONDecodeError (msg : string).

Inductive result (A : Type) : Type :=
| Ok (a : A)
| Raise (e : exn).
Arguments Ok {A} a.
Arguments Raise {A} e.

#[global] Instance result_ret : MRet result := fun A a => Ok a.
#[global] Instance result_bind : MBind result := fun A B f m =>
  match m with
  | Ok a => f a
  | Raise e => Raise e
  end.

Definition is_ok {A} (m : result A) : bool :=
  match m with Ok _ => true | Raise _ => false end.

(** ** Decoded JSON values *)

Section Values.

(** Python floats (IEEE doubles) are kept abstract: the script never
    computes with them, it only asks for their truth value, compares them
    with the integer keys of a dict and prints them. *)
Variable float : Type.

(** A dict keeps its keys in insertion order, which [str] shows; it is an
    association list, read by its first binding of a key. *)
Inductive value : Type :=
| VNone
| VBool (b : bool)
| VInt (n : Z)
| VFloat (x : float)
| VStr (s : string)
| VList (l : list value)
| VDict (d : list (string * value)).

(** The operations that can raise [TypeError]; the interpreter words the
    message from the operation and the operand. *)
Inductive pyop : Type :=
| OpIn
| OpGetItem
| OpLen
| OpIter
| OpHash
| OpJoin (i : nat).

(** What the model takes from the interpreter as given. *)
Record runtime : Type := {
  (** [bool(x)] of a float: [x != 0.0] *)
  float_bool : float -> bool;
  (** the integer a float is equal to (and hashes like), if any: [1.0 == 1] *)
  float_int : float -> option Z;
  (** [repr] of a value; [str] falls back on it for floats, lists, dicts *)
  py_repr : value -> string;
  (** the text of the [TypeError] of an operation on an operand *)
  type_error_msg : pyop -> value -> string
}.

Variable rt : runtime.

Definition type_error {A} (op : pyop) (v : value) : result A :=
  Raise (TypeError (type_error_msg rt op v)).

(** [dict.get]-like lookup in the association list. *)
Fixpoint assoc (k : string) (d : list (string * value)) : option value :=
  match d with
  | [] => None
  | (k', v) :: d' => if String.eqb k k' then Some v else assoc k d'
  end.

(** [v == s] for a str literal [s]: only a str can be equal to a str. *)
Definition py_eq_str (v : value) (s : string) : bool :=
  match v with
  | VStr s' => String.eqb s' s
  | _ => false
  end.

(** [s in t] on two strs: substring test. *)
Definition is_substring (s t : string) : bool :=
  match index 0 s t with
  | Some _ => true
  | None => false
  end.

(** [k in v] for a str literal [k]. *)
Definition py_contains (k : string) (v : value) : result bool :=
  match v with
  | VDict d => Ok (match assoc k d with Some _ => true | None => false end)
  | VList l => Ok (existsb (fun x => py_eq_str x k) l)
  | VStr s => Ok (is_substring k s)
  | _ => type_error OpIn v
  end.

(** [v[k]] for a str literal [k]. *)
Definition py_getitem (v : value) (k : string) : result value :=
  match v with
  | VDict d =>
      match assoc k d with
      | Some x => Ok x
      | None => Raise (KeyError k)
      end
  | _ => type_error OpGetItem v
  end.

(** [len(v)] *)
Definition py_len (v : value) : result nat :=
  match v with
  | VList l => Ok (length l)
  | VDict d => Ok (length d)
  | VStr s => Ok (String.length s)
  | _ => type_error OpLen v
  end.

Fixpoint chars (s : string) : list value :=
  match s with
  | EmptyString => []
  | String c s' => VStr (String c EmptyString) :: chars s'
  end.

(** The elements [for x in v] runs through: a dict yields its keys, a
    str its characters. *)
Definition py_iter (v : value) : result (list value) :=
  match v with
  | VList l => Ok l
  | VDict d => Ok (map (fun kv => VStr (fst kv)) d)
  | VStr s => Ok (chars s)
  | _ => type_error OpIter v
  end.

(** Truth value: [not v] is [negb (py_bool v)]. *)
Definition py_bool (v : value) : bool :=
  match v with
  | VNone => false
  | VBool b => b
  | VInt n => negb (n =? 0)%Z
  | VFloat x => float_bool rt x
  | VStr s => negb (String.eqb s EmptyString)
  | VList l => match l with [] => false | _ => true end
  | VDict d => match d with [] => false | _ => true end
  end.

(** [str(n)] of an int: decimal digits, a minus sign when negative. *)
Definition str_int (n : Z) : string := NilZero.string_of_int (Z.to_int n).

(** [str(v)], which is also what an f-string field [{v}] inserts. *)
Definition py_str (v : value) : string :=
  match v with
  | VStr s => s
  | VInt n => str_int n
  | VBool true => "True"
  | VBool false => "False"
  | VNone => "None"
  | _ => py_repr rt v
  end.

(** ['\t'.join(l)]: every item has to be a str. *)
Fixpoint join_from (i : nat) (sep : string) (l : list value) : result string :=
  match l with
  | [] => Ok EmptyString
  | v :: l' =>
      match v with
      | VStr s =>
          rest ← join_from (S i) sep l';
          Ok (match l' with [] => s | _ => s +:+ sep +:+ rest end)
      | _ => type_error (OpJoin i) v
      end
  end.

Definition py_join (sep : string) (l : list value) : result string :=
  join_from 0 sep l.

End Values.

Arguments VNone {float}.
Arguments VBool {float} b.
Arguments VInt {float} n.
Arguments VFloat {float} x.
Arguments VStr {float} s.
Arguments VList {float} l.
Arguments VDict {float} d.
Arguments float_bool {float} r x.
Arguments float_int {float} r x.
Arguments py_repr {float} r v.
Arguments type_error_msg {float} r op v.
Arguments type_error {float} rt {A} op v.
Arguments assoc {float} k d.
Arguments py_eq_str {float} v s.
Arguments py_contains {float} rt k v.
Arguments py_getitem {float} rt v k.
Arguments py_len {float} rt v.
Arguments chars {float} s.
Arguments py_iter {float} rt v.
Arguments py_bool {float} rt v.
Arguments py_str {float} rt v.
Arguments join_from {float} rt i sep l.
Arguments py_join {float} rt sep l.

(** ** The record-type table *)

(** [RECORD_TYPES], lines 27-38: provider code to record-type name. *)
Definition RECORD_TYPES : gmap Z string :=
  list_to_map
    [ (1%Z, "A"); (2%Z, "CNAME"); (3%Z, "MX"); (5%Z, "TXT"); (8%Z, "AAAA");
      (9%Z, "NS"); (10%Z, "URL Redirect"); (11%Z, "SRV"); (12%Z, "CAA");
      (13%Z, "ALIAS") ].

(** The double-quote character of line 93. *)
Definition dquote : string := String "034" EmptyString.

Section Script.

Variable float : Type.
Variable rt : runtime float.

(** The integer key a value stands for in a dict with int keys: hashing
    rejects lists and dicts; [True] and [1.0] are equal to [1] and hash
    like it; a str or [None] is equal to no int. *)
Definition int_key (v : value float) : result (option Z) :=
  match v with
  | VInt n => Ok (Some n)
  | VBool b => Ok (Some (if b then 1%Z else 0%Z))
  | VFloat x => Ok (float_int rt x)
  | VStr _ | VNone => Ok None
  | VList _ | VDict _ => type_error rt OpHash v
  end.

(** The entry of [RECORD_TYPES] a value finds, if any: what both the
    membership test of line 83 and the subscript of line 86 look up. *)
Definition table_entry (v : value float) : result (option string) :=
  k ← int_key v;
  Ok (k ≫= (RECORD_TYPES !!.)).

(** [v in RECORD_TYPES.keys()], line 83. *)
Definition in_record_types (v : value float) : result bool :=
  o ← table_entry v;
  Ok (match o with Some _ => true | None => false end).

(** [RECORD_TYPES[v]], line 86. *)
Definition record_types_getitem (v : value float) : result string :=
  o ← table_entry v;
  match o with
  | Some name => Ok name
  | None => Raise (KeyError (py_repr rt v))
  end.

(** Lines 67-72: the three membership tests, joined by [and], then the
    three subscripts.  Each test is evaluated only if the one before it
    is true; the subscripts in the later tests are evaluated again each
    time, with the same result. *)
Definition find_records (dns_info : value float) : result (value float) :=
  b1 ← py_contains rt "Result" dns_info;
  if negb b1 then Raise (KeyError "JSON is in an unexpected format") else
  r ← py_getitem rt dns_info "Result";
  b2 ← py_contains rt "CustomHostRecords" r;
  if negb b2 then Raise (KeyError "JSON is in an unexpected format") else
  c ← py_getitem rt r "CustomHostRecords";
  b3 ← py_contains rt "Records" c;
  if negb b3 then Raise (KeyError "JSON is in an unexpected format") else
  py_getitem rt c "Records".

(** Line 96: [dns_info['Result']['DomainBasicDetails']['DomainName']]. *)
Definition domain_name (dns_info : value float) : result (value float) :=
  r ← py_getitem rt dns_info "Result";
  b ← py_getitem rt r "DomainBasicDetails";
  py_getitem rt b "DomainName".

(** Lines 78-108, one turn of the loop: [None] when the record is skipped
    by [continue], otherwise the list appended to [items]. *)
Definition loop_body (dns_info : value float) (output_format : string)
    (record : value float) : result (option (list (value float))) :=
  active ← py_getitem rt record "IsActive";
  if negb (py_bool rt active) then Ok None else
  code ← py_getitem rt record "RecordType";
  known ← in_record_types code;
  if negb known then Ok None else
  code ← py_getitem rt record "RecordType";
  record_type ← record_types_getitem code;
  value ← py_getitem rt record "Data";
  host ← py_getitem rt record "Host";
  value ←
    (if String.eqb record_type "MX" then
       priority ← py_getitem rt record "Priority";
       Ok (VStr (py_str rt priority +:+ " " +:+ py_str rt value))
     else if String.eqb record_type "TXT" then
       Ok (VStr (dquote +:+ py_str rt value +:+ dquote))
     else Ok value);
  host ←
    (if String.eqb output_format "cloudflare" then
       domain ← domain_name dns_info;
       if py_eq_str host "@" then Ok domain
       else Ok (VStr (py_str rt host +:+ "." +:+ py_str rt domain +:+ "."))
     else Ok host);
  ttl ← py_getitem rt record "Ttl";
  Ok (Some [host; VStr (py_str rt ttl); VStr "IN"; VStr record_type; value]).

(** Lines 77-110: the [for] loop over the records, [items] growing at its
    end. *)
Fixpoint for_records (dns_info : value float) (output_format : string)
    (records : list (value float)) (items : list (list (value float)))
    : result (list (list (value float))) :=
  match records with
  | [] => Ok items
  | record :: rest =>
      o ← loop_body dns_info output_format record;
      for_records dns_info output_format rest
        (match o with Some item => items ++ [item] | None => items end)
  end.

(** [parse_dns_info], lines 64-110. *)
Definition parse_dns_info (dns_info : value float) (output_format : string)
    : result (list (list (value float))) :=
  let items := [] in
  records ← find_records dns_info;
  n ← py_len rt records;
  if (n =? 0)%nat then Raise (PyException "No DNS records found in JSON") else
  rs ← py_iter rt records;
  for_records dns_info output_format rs items.

End Script.

Arguments int_key {float} rt v.
Arguments table_entry {float} rt v : simpl never.
Arguments in_record_types {float} rt v.
Arguments record_types_getitem {float} rt v.
Arguments find_records {float} rt dns_info.
Arguments domain_name {float} rt dns_info.
Arguments loop_body {float} rt dns_info output_format record.
Arguments for_records {float} rt dns_info output_format records items.
Arguments parse_dns_info {float} rt dns_info output_format.

(** ** The entry point, lines 113-128 *)

Section Main.

Variable float : Type.
Variable rt : runtime float.

(** What the script reads from outside: [open(filename).read()] and
    [json.loads] of the text read. *)
Record world : Type := {
  read_file : string -> result string;
  json_loads : string -> result (value float)
}.

(** The classes named in the two [except] clauses. *)
Inductive exn_class : Type :=
| IOError_class
| KeyError_class
| Exception_class
| JSONDecodeError_class.

(** [isinstance(e, c)]: [IOError] is [OSError]; every exception of the
    model, [JSONDecodeError] (a [ValueError]) included, is an
    [Exception]. *)
Definition isinstance (e : exn) (c : exn_class) : bool :=
  match c, e with
  | Exception_class, _ => true
  | IOError_class, OSError _ => true
  | KeyError_class, KeyError _ => true
  | JSONDecodeError_class, JSONDecodeError _ => true
  | _, _ => false
  end.

(** [str(e)]: a [KeyError] shows the [repr] of its argument. *)
Definition exn_str (e : exn) : string :=
  match e with
  | KeyError arg => py_repr rt (VStr arg)
  | TypeError msg | PyException msg | OSError msg | JSONDecodeError msg => msg
  end.

(** An [except] clause: the classes it names and the line it prints. *)
Definition handler : Type := list exn_class * (exn -> string).

(** The clauses of lines 125-128, in the order of the source. *)
Definition handlers (filename : string) : list handler :=
  [ ([IOError_class; KeyError_class; Exception_class],
     fun e => "ERROR: " +:+ exn_str e);
    ([JSONDecodeError_class],
     fun e => "ERROR: Unable to decode JSON from " +:+ filename +:+ ": "
              +:+ exn_str e) ].

(** The first clause that names a class of the exception handles it. *)
Fixpoint dispatch (hs : list handler) (e : exn) : option string :=
  match hs with
  | [] => None
  | (classes, body) :: hs' =>
      if existsb (isinstance e) classes then Some (body e)
      else dispatch hs' e
  end.

Definition tab : string := String "009" EmptyString.

(** Lines 123-124: one [print] per record; a record that [join] rejects
    ends the loop after the lines already printed. *)
Fixpoint print_records (records : list (list (value float)))
    : list string * option exn :=
  match records with
  | [] => ([], None)
  | record :: rest =>
      match py_join rt tab record with
      | Raise e => ([], Some e)
      | Ok line =>
          let (lines, e) := print_records rest in (line :: lines, e)
      end
  end.

(** The body of the [try], lines 115-124, after [get_args]: the lines it
    prints and the exception that ends it, if any. *)
Definition try_body (w : world) (filename output_format : string)
    : list string * option exn :=
  match read_file w filename with
  | Raise e => ([], Some e)
  | Ok text =>
      match json_loads w text with
      | Raise e => ([], Some e)
      | Ok dns_info =>
          match parse_dns_info rt dns_info output_format with
          | Raise e => ([], Some e)
          | Ok records => print_records records
          end
      end
  end.

(** The script run on parsed arguments: everything it prints. *)
Definition main (w : world) (filename output_format : string) : list string :=
  let (lines, e) := try_body w filename output_format in
  match e with
  | None => lines
  | Some e =>
      match dispatch (handlers filename) e with
      | Some line => lines ++ [line]
      | None => lines
      end
  end.

End Main.

Arguments read_file {float} w filename.
Arguments json_loads {float} w text.
Arguments exn_str {float} rt e.
Arguments handlers {float} rt filename.
Arguments print_records {float} rt records.
Arguments try_body {float} rt w filename output_format.
Arguments main {float} rt w filename output_format.

(** ** A reference interpreter for documents without floats

    The messages are those of CPython 3.12; [repr] of a str is exact on
    printable text. *)

Module CPython.

Definition float : Type := Empty_set.

Definition type_name (v : value float) : string :=
  match v with
  | VNone => "NoneType"
  | VBool _ => "bool"
  | VInt _ => "int"
  | VFloat _ => "float"
  | VStr _ => "str"
  | VList _ => "list"
  | VDict _ => "dict"
  end.

Definition hex_digit (n : N) : ascii :=
  ascii_of_N (if (n <? 10)%N then 48 + n else 87 + n).

Definition repr_char (quote c : ascii) : string :=
  if Ascii.eqb c "\" then "\\"
  else if Ascii.eqb c quote then String "\" (String quote EmptyString)
  else if Ascii.eqb c "010" then "\n"
  else if Ascii.eqb c "013" then "\r"
  else if Ascii.eqb c "009" then "\t"
  else if (N_of_ascii c <? 32)%N || (N_of_ascii c =? 127)%N then
    "\x" +:+ String (hex_digit (N_of_ascii c / 16))
               (String (hex_digit (N_of_ascii c mod 16)) EmptyString)
  else String c EmptyString.

Fixpoint has_char (c : ascii) (s : string) : bool :=
  match s with
  | EmptyString => false
  | String c' s' => Ascii.eqb c c' || has_char c s'
  end.

Fixpoint repr_chars (quote : ascii) (s : string) : string :=
  match s with
  | EmptyString => EmptyString
  | String c s' => repr_char quote c +:+ repr_chars quote s'
  end.

(** Single quotes, unless the text has a single quote and no double one. *)
Definition repr_str (s : string) : string :=
  let quote : ascii :=
    if has_char "'"%char s && negb (has_char "034"%char s)
    then "034"%char else "'"%char in
  String quote (repr_chars quote s +:+ String quote EmptyString).

Fixpoint repr (v : value float) : string :=
  match v with
  | VNone => "None"
  | VBool true => "True"
  | VBool false => "False"
  | VInt n => str_int n
  | VFloat x => match x with end
  | VStr s => repr_str s
  | VList l => "[" +:+ String.concat ", " (map repr l) +:+ "]"
  | VDict d =>
      "{" +:+ String.concat ", "
                (map (fun kv => let '(k, x) := kv in
                                repr_str k +:+ ": " +:+ repr x) d) +:+ "}"
  end.

Definition message (op : pyop) (v : value float) : string :=
  match op with
  | OpIn => "argument of type '" +:+ type_name v +:+ "' is not iterable"
  | OpGetItem =>
      match v with
      | VList _ => "list indices must be integers or slices, not str"
      | VStr _ => "string indices must be integers, not 'str'"
      | _ => "'" +:+ type_name v +:+ "' object is not subscriptable"
      end
  | OpLen => "object of type '" +:+ type_name v +:+ "' has no len()"
  | OpIter => "'" +:+ type_name v +:+ "' object is not iterable"
  | OpHash => "unhashable type: '" +:+ type_name v +:+ "'"
  | OpJoin i =>
      "sequence item " +:+ str_int (Z.of_nat i) +:+ ": expected str instance, "
      +:+ type_name v +:+ " found"
  end.

Definition cpython : runtime float :=
  {| float_bool := fun x : float => match x with end;
     float_int := fun x : float => match x with end;
     py_repr := repr;
     type_error_msg := message |}.

End CPython.

(** ** The vocabulary of the specification *)

Section Spec.

Variable float : Type.
Variable rt : runtime float.

(** A path of keys through nested mappings. *)
Fixpoint get_path (ks : list string) (v : value float) : option (value float) :=
  match ks with
  | [] => Some v
  | k :: ks' =>
      match v with
      | VDict d =>
          match assoc k d with
          | Some x => get_path ks' x
          | None => None
          end
      | _ => None
      end
  end.

Definition records_path : list string :=
  ["Result"; "CustomHostRecords"; "Records"].

Definition domain_path : list string :=
  ["Result"; "DomainBasicDetails"; "DomainName"].

(** Every value met on the way down a path, as far as the path goes, is a
    mapping. *)
Fixpoint mappings_along (ks : list string) (v : value float) : bool :=
  match ks with
  | [] => true
  | k :: ks' =>
      match v with
      | VDict d =>
          match assoc k d with
          | Some x => mappings_along ks' x
          | None => true
          end
      | _ => false
      end
  end.

(** The document that holds a records value and nothing else. *)
Definition records_only (records : value float) : value float :=
  VDict [("Result", VDict [("CustomHostRecords", VDict [("Records", records)])])].

(** An attribute of a raw record entry. *)
Definition attr (k : string) (r : value float) : option (value float) :=
  match r with
  | VDict d => assoc k d
  | _ => None
  end.

Definition has_attr (k : string) (r : value float) : bool :=
  match attr k r with Some _ => true | None => false end.

(** [IsActive] is (the boolean) true. *)
Definition is_active (r : value float) : bool :=
  match attr "IsActive" r with
  | Some (VBool b) => b
  | _ => false
  end.

(** The Record Code Table's name for an integer [RecordType]. *)
Definition type_name_of (r : value float) : option string :=
  match attr "RecordType" r with
  | Some (VInt c) => RECORD_TYPES !! c
  | _ => None
  end.

(** Active, and the type is a key of the table. *)
Definition selected (r : value float) : bool :=
  is_active r &&
  match type_name_of r with Some _ => true | None => false end.

(** The entry is a mapping that carries every attribute the loop reads
    from it: a boolean [IsActive]; if that is true, an integer
    [RecordType]; if that is a key of the table, [Data], [Host] and [Ttl],
    and [Priority] for an MX record. *)
Definition complete_entry (r : value float) : bool :=
  match attr "IsActive" r with
  | Some (VBool false) => true
  | Some (VBool true) =>
      match attr "RecordType" r with
      | Some (VInt c) =>
          match RECORD_TYPES !! c with
          | None => true
          | Some name =>
              has_attr "Data" r && has_attr "Host" r && has_attr "Ttl" r &&
              (if String.eqb name "MX" then has_attr "Priority" r else true)
          end
      | _ => false
      end
  | _ => false
  end.

(** Step 4 of the specification: the value field of a record of type
    [name]. *)
Definition computed_value (name : string) (data : value float)
    (priority : option (value float)) : option (value float) :=
  if String.eqb name "MX" then
    p ← priority;
    Some (VStr (py_str rt p +:+ " " +:+ py_str rt data))
  else if String.eqb name "TXT" then
    Some (VStr (dquote +:+ py_str rt data +:+ dquote))
  else Some data.

(** Step 5 of the specification: the host field. *)
Definition computed_host (fmt : string) (host : value float)
    (domain : option (value float)) : option (value float) :=
  if String.eqb fmt "cloudflare" then
    dom ← domain;
    Some (if py_eq_str host "@" then dom
          else VStr (py_str rt host +:+ "." +:+ py_str rt dom +:+ "."))
  else Some host.

(** Steps 1-6 of the specification as a relation between an entry and
    the record made from it. *)
Inductive normalizes (d : value float) (fmt : string) (r : value float)
    : list (value float) -> Prop :=
| Normalizes a code name data host ttl val h :
    attr "IsActive" r = Some a ->
    py_bool rt a = true ->
    attr "RecordType" r = Some code ->
    table_entry rt code = Ok (Some name) ->
    attr "Data" r = Some data ->
    attr "Host" r = Some host ->
    attr "Ttl" r = Some ttl ->
    computed_value name data (attr "Priority" r) = Some val ->
    computed_host fmt host (get_path domain_path d) = Some h ->
    normalizes d fmt r [h; VStr (py_str rt ttl); VStr "IN"; VStr name; val].

(** The loop emits [item] for the entry [r]. *)
Definition emitted (d : value float) (fmt : string)
    (r : value float) (item : list (value float)) : Prop :=
  loop_body rt d fmt r = Ok (Some item).

Definition emits (d : value float) (fmt : string) (r : value float) : bool :=
  match loop_body rt d fmt r with
  | Ok (Some _) => true
  | _ => false
  end.

(** The attributes the loop reads from an entry, in the order of the
    source; [first_missing] is the first of them that the entry lacks. *)
Definition entry_name (e : list (string * value float)) : option string :=
  match assoc "RecordType" e with
  | Some code =>
      match table_entry rt code with
      | Ok o => o
      | Raise _ => None
      end
  | None => None
  end.

Definition reads (e : list (string * value float)) : list string :=
  "IsActive" ::
  match assoc "IsActive" e with
  | Some a =>
      if py_bool rt a then
        "RecordType" ::
        match entry_name e with
        | Some name =>
            ["Data"; "Host"] ++
            (if String.eqb name "MX" then ["Priority"] else []) ++ ["Ttl"]
        | None => []
        end
      else []
  | None => []
  end.

Definition first_missing (e : list (string * value float)) : option string :=
  head (List.filter (fun a => match assoc a e with None => true | _ => false end)
          (reads e)).

End Spec.

Arguments get_path {float} ks v.
Arguments mappings_along {float} ks v.
Arguments records_only {float} records.
Arguments attr {float} k r.
Arguments has_attr {float} k r.
Arguments is_active {float} r.
Arguments type_name_of {float} r.
Arguments selected {float} r.
Arguments complete_entry {float} r.
Arguments computed_value {float} rt name data priority.
Arguments computed_host {float} rt fmt host domain.
Arguments normalizes {float} rt d fmt r _.
Arguments emitted {float} rt d fmt r item.
Arguments emits {float} rt d fmt r.
Arguments entry_name {float} rt e.
Arguments reads {float} rt e.
Arguments first_missing {float} rt e.

(** Decimal digits only, and no leading zero: the unsigned decimal numerals. *)
Definition is_digit (c : ascii) : bool :=
  (48 <=? N_of_ascii c)%N && (N_of_ascii c <=? 57)%N.

Fixpoint all_digits (s : string) : bool :=
  match s with
  | EmptyString => true
  | String c s' => is_digit c && all_digits s'
  end.

Definition unsigned_numeral (s : string) : bool :=
  match s with
  | EmptyString => false
  | String c s' =>
      all_digits s &&
      (negb (Ascii.eqb c "0") || String.eqb s' EmptyString)
  end.

(** The number an unsigned decimal numeral denotes. *)
Definition numeral_value (s : string) : option N :=
  N.of_uint <$> NilZero.uint_of_string s.

(** The five fields of a normalized record. *)
Definition field {float} (i : nat) (item : list (value float)) : value float :=
  nth i item VNone.
Definition host_field {float} := @field float 0.
Definition ttl_field {float} := @field float 1.
Definition class_field {float} := @field float 2.
Definition type_field {float} := @field float 3.
Definition value_field {float} := @field float 4.

(** The StructureError of the specification: line 72. *)
Definition unexpected_format : exn :=
  KeyError "JSON is in an unexpected format".

(** The EmptyResultError of the specification: line 75. *)
Definition no_records : exn :=
  PyException "No DNS records found in JSON".

(** ** Sample documents *)

Module Samples.

Import CPython.

Definition entry (active : bool) (code : Z) (host : string) (ttl : Z)
    (data : string) (priority : Z) : value float :=
  VDict [("IsActive", VBool active); ("RecordType", VInt code);
         ("Host", VStr host); ("Ttl", VInt ttl); ("Data", VStr data);
         ("Priority", VInt priority)].

Definition www_record : value float :=
  entry true 1 "www" 300 "1.2.3.4" 10.
Definition apex_record : value float :=
  entry true 1 "@" 1800 "1.2.3.4" 10.
Definition mx_record : value float :=
  entry true 3 "@" 3600 "mail.example.com" 10.
Definition txt_record : value float :=
  entry true 5 "@" 3600 "v=spf1 include:_spf.example.com ~all" 10.
(** A text with double quotes of its own. *)
Definition quoted_record : value float :=
  entry true 5 "note" 60 ("say " +:+ dquote +:+ "hi" +:+ dquote) 10.
Definition off_record : value float :=
  entry false 1 "old" 300 "5.6.7.8" 10.
Definition odd_record : value float :=
  entry true 99 "odd" 300 "x" 10.
(** Inactive, and nothing else. *)
Definition bare_inactive : value float :=
  VDict [("IsActive", VBool false)].
(** An MX record with a negative priority. *)
Definition negative_mx : value float :=
  entry true 3 "@" 3600 "mail.example.com" (-5).

Definition document (records : value float) (details : list (string * value float))
    : value float :=
  VDict [("Result",
          VDict (("CustomHostRecords", VDict [("Records", records)]) :: details))].

Definition example_com : list (string * value float) :=
  [("DomainBasicDetails", VDict [("DomainName", VStr "example.com")])].

Definition zone_records : list (value float) :=
  [www_record; off_record; apex_record; odd_record; mx_record;
   bare_inactive; txt_record; quoted_record].

Definition zone : value float := document (VList zone_records) example_com.

(** The same records with no DomainBasicDetails at all. *)
Definition zone_no_domain : value float := document (VList zone_records) [].

Definition kept_records : list (value float) :=
  [www_record; apex_record; mx_record; txt_record; quoted_record].

Definition zone_default : list (list (value float)) :=
  [ [VStr "www"; VStr "300"; VStr "IN"; VStr "A"; VStr "1.2.3.4"];
    [VStr "@"; VStr "1800"; VStr "IN"; VStr "A"; VStr "1.2.3.4"];
    [VStr "@"; VStr "3600"; VStr "IN"; VStr "MX"; VStr "10 mail.example.com"];
    [VStr "@"; VStr "3600"; VStr "IN"; VStr "TXT";
     VStr (dquote +:+ "v=spf1 include:_spf.example.com ~all" +:+ dquote)];
    [VStr "note"; VStr "60"; VStr "IN"; VStr "TXT";
     VStr (dquote +:+ "say " +:+ dquote +:+ "hi" +:+ dquote +:+ dquote)] ].

Definition zone_cloudflare : list (list (value float)) :=
  [ [VStr "www.example.com."; VStr "300"; VStr "IN"; VStr "A"; VStr "1.2.3.4"];
    [VStr "example.com"; VStr "1800"; VStr "IN"; VStr "A"; VStr "1.2.3.4"];
    [VStr "example.com"; VStr "3600"; VStr "IN"; VStr "MX";
     VStr "10 mail.example.com"];
    [VStr "example.com"; VStr "3600"; VStr "IN"; VStr "TXT";
     VStr (dquote +:+ "v=spf1 include:_spf.example.com ~all" +:+ dquote)];
    [VStr "note.example.com."; VStr "60"; VStr "IN"; VStr "TXT";
     VStr (dquote +:+ "say " +:+ dquote +:+ "hi" +:+ dquote +:+ dquote)] ].

(** Documents on which claims of the specification fail. *)
Definition empty_entry_doc : value float :=
  document (VList [VDict []]) example_com.
Definition negative_mx_doc : value float :=
  document (VList [negative_mx]) example_com.
Definition null_result_doc : value float :=
  VDict [("Result", VNone)].
Definition inactive_doc : value float :=
  document (VList [bare_inactive]) [].
Definition no_records_doc : value float :=
  document (VList []) example_com.
Definition no_ttl_entry : list (string * value float) :=
  [("IsActive", VBool true); ("RecordType", VInt 1);
   ("Host", VStr "www"); ("Data", VStr "1.2.3.4")].
Definition no_ttl_doc : value float :=
  document (VList [off_record; VDict no_ttl_entry; www_record]) example_com.
Definition no_path_doc : value float :=
  VDict [("Result", VDict example_com)].

(** A file that does not hold JSON: the decoder's message is CPython's for
    this text. *)
Definition broken_file : world float :=
  {| read_file := fun _ => Ok "not json";
     json_loads := fun _ =>
       Raise (JSONDecodeError "Expecting value: line 1 column 1 (char 0)") |}.

End Samples.

(** ** Further vocabulary *)

(** The attributes of an entry that the loop can read. *)
Definition entry_keys : list string :=
  ["IsActive"; "RecordType"; "Data"; "Host"; "Priority"; "Ttl"].

(** Two entries that agree on these attributes. *)
Definition same_entry {float} (e1 e2 : list (string * value float)) : Prop :=
  forall k, In k entry_keys -> assoc k e1 = assoc k e2.

(** The names the table can give. *)
Definition type_names : list string :=
  ["A"; "CNAME"; "MX"; "TXT"; "AAAA"; "NS"; "URL Redirect"; "SRV"; "CAA";
   "ALIAS"].

(** The first field of a record apart, the other four. *)
Definition after_host {float} (item : list (value float)) : list (value float) :=
  tl item.

(** A value that is a text. *)
Definition is_text_value {float} (v : value float) : Prop :=
  exists s, v = VStr s.

(** A record whose fields are all texts. *)
Definition texts {float} (fields : list string) : list (value float) :=
  map VStr fields.

(** ** azure_create.py: the names of the deployment *)

Module AzureCreate.

(** [s.replace(c, "")] for a one-character [c]: every occurrence goes. *)
Fixpoint remove_char (c : ascii) (s : string) : string :=
  match s with
  | EmptyString => EmptyString
  | String a s' =>
      if Ascii.eqb a c then remove_char c s' else String a (remove_char c s')
  end.

(** Line 18. *)
Definition storage_project_name (project_name : string) : string :=
  remove_char "-" project_name.

(** [get_config], lines 16-34, on the parsed [--project-name]: the dict it
    returns, keys in the order of the source. *)
Definition get_config (project_name : string) : list (string * string) :=
  let storage_project_name := storage_project_name project_name in
  [ ("project_name", project_name);
    ("resource_group", "synai-" +:+ project_name +:+ "-rg");
    ("environment_name",
     "synai-" +:+ project_name +:+ "-container-environment");
    ("location", "ukwest");
    ("storage_account_name", "synai" +:+ storage_project_name +:+ "stoacct");
    ("storage_share_name", "synai" +:+ storage_project_name +:+ "fileshare");
    ("storage_mount_name",
     "synai" +:+ storage_project_name +:+ "storagemount");
    ("container_app_name", "synai-" +:+ project_name +:+ "-container-app");
    ("registry_server", "ghcr.io");
    ("registry_username", "richardbushnell");
    ("image", "ghcr.io/tudutu/open-webui:latest");
    ("webui_name", "Demo Site " +:+ project_name) ].

(** [config[k]] for a key of the dict. *)
Fixpoint config_get (k : string) (config : list (string * string))
    : option string :=
  match config with
  | [] => None
  | (k', v) :: config' =>
      if String.eqb k k' then Some v else config_get k config'
  end.

(** What the start of [main], lines 42-57, ends with. *)
Inductive started (C : Type) : Type :=
| Proceed (credential : C) (subscription_id registry_password : string)
| SysExit (status : Z).
Arguments Proceed {C} credential subscription_id registry_password.
Arguments SysExit {C} status.

(** Truth value of what [os.environ.get] returns: [None] and the empty
    text are false. *)
Definition env_set (x : option string) : bool :=
  match x with
  | None => false
  | Some s => negb (String.eqb s EmptyString)
  end.

(** Lines 42-57: the credential is made ([inr msg] when its constructor
    raises an exception whose text is [msg]), then the two environment
    variables are checked.  [sys.exit] raises [SystemExit], which is not
    an [Exception]: the [except] clause of line 49 does not catch the one
    of line 47.  The result is what is printed on stderr and how the
    start ends. *)
Definition start {C} (credential : C + string)
    (environ : string -> option string) : list string * started C :=
  match credential with
  | inr msg =>
      ([ "Error during authentication: " +:+ msg;
         "Please ensure you are logged in to Azure with 'az login' and have the necessary permissions." ],
       SysExit 1)
  | inl credential =>
      let subscription_id := environ "AZURE_SUBSCRIPTION_ID" in
      if negb (env_set subscription_id) then
        (["Error: AZURE_SUBSCRIPTION_ID environment variable not set."],
         SysExit 1)
      else
        let registry_password := environ "REGISTRY_PASSWORD" in
        if negb (env_set registry_password) then
          (["Warning: REGISTRY_PASSWORD environment variable not set."],
           SysExit 1)
        else
          ([], Proceed credential
                 (default EmptyString subscription_id)
                 (default EmptyString registry_password))
  end.

(** Lower-case letters and digits: the characters of a storage account
    name, by the comment of line 17. *)
Definition is_lower (c : ascii) : bool :=
  (97 <=? N_of_ascii c)%N && (N_of_ascii c <=? 122)%N.

Definition storage_char (c : ascii) : bool := is_lower c || is_digit c.

Fixpoint all_chars (f : ascii -> bool) (s : string) : bool :=
  match s with
  | EmptyString => true
  | String c s' => f c && all_chars f s'
  end.

(** The rule of the comment of line 17. *)
Definition valid_storage_account_name (s : string) : bool :=
  (3 <=? String.length s)%nat && (String.length s <=? 24)%nat &&
  all_chars storage_char s.

Definition storage_account_name (project_name : string) : string :=
  default EmptyString
    (config_get "storage_account_name" (get_config project_name)).

Definition resource_group (project_name : string) : string :=
  default EmptyString (config_get "resource_group" (get_config project_name)).

End AzureCreate.

(** ** More sample documents *)

Module MoreSamples.

Import CPython Samples.

(** The sample zone as the provider sends it: other keys around the two
    paths, entries with other attributes, in another order. *)
Definition verbose_entry (e : value float) : list (string * value float) :=
  match e with
  | VDict d => ("HostId", VInt 12345) :: rev d ++ [("IsDDNSEnabled", VBool false)]
  | _ => []
  end.

Definition plain_entry (e : value float) : list (string * value float) :=
  match e with
  | VDict d => d
  | _ => []
  end.

Definition verbose_zone : value float :=
  VDict [("Success", VBool true);
         ("Result",
          VDict [("DomainBasicDetails",
                  VDict [("DomainId", VInt 7); ("DomainName", VStr "example.com")]);
                 ("CustomHostRecords",
                  VDict [("IsManageble", VBool true);
                         ("Records", VList (map VDict (map verbose_entry zone_records)))])]);
         ("Errors", VList [])].

(** The sample zone, its entries as they are, among other keys. *)
Definition padded_zone : value float :=
  VDict [("Success", VBool true);
         ("Result",
          VDict [("DomainBasicDetails",
                  VDict [("DomainId", VInt 7); ("DomainName", VStr "example.com")]);
                 ("CustomHostRecords",
                  VDict [("IsManageble", VBool true);
                         ("Records", VList zone_records)])]);
         ("Errors", VList [])].


(** The sample zone in two halves. *)
Definition first_half : list (value float) :=
  [www_record; off_record; apex_record; odd_record].
Definition second_half : list (value float) :=
  [mx_record; bare_inactive; txt_record; quoted_record].

Definition first_half_doc : value float :=
  document (VList first_half) example_com.
Definition second_half_doc : value float :=
  document (VList second_half) example_com.

(** Entries that make the loop or the printing fail. *)
Definition text_entry_doc : value float :=
  document (VList [www_record; off_record; VStr "oops"; mx_record]) example_com.

Definition unhashable_entry : list (string * value float) :=
  [("IsActive", VBool true); ("RecordType", VList [VInt 1]);
   ("Host", VStr "www"); ("Ttl", VInt 300); ("Data", VStr "1.2.3.4")].
Definition unhashable_doc : value float :=
  document (VList [www_record; VDict unhashable_entry; mx_record]) example_com.

Definition records_text_doc : value float :=
  document (VStr "none") example_com.


(** A file that decodes to a given document. *)
Definition file_of (doc : value float) : world float :=
  {| read_file := fun _ => Ok "{...}"; json_loads := fun _ => Ok doc |}.

(** A file that cannot be opened. *)
Definition no_file : world float :=
  {| read_file := fun name =>
       Raise (OSError ("[Errno 2] No such file or directory: '" +:+ name +:+ "'"));
     json_loads := fun _ => Ok VNone |}.

End MoreSamples.

(** * Properties *)

(** ** Texts *)

Lemma length_app_text s t :
  String.length (s +:+ t) = (String.length s + String.length t)%nat.
Proof.
  induction s as [|c s IH]; [reflexivity|].
  change (String c s +:+ t) with (String c (s +:+ t)). cbn. f_equal. exact IH.
Qed.

Lemma substring_prefix s t :
  substring 0 (String.length s) (s +:+ t) = s.
Proof.
  induction s as [|c s IH].
  - destruct t; reflexivity.
  - change (String c s +:+ t) with (String c (s +:+ t)). cbn. f_equal. exact IH.
Qed.

(** ** Decimal numerals *)

Lemma all_digits_string_of_uint u :
  all_digits (NilEmpty.string_of_uint u) = true.
Proof. induction u; cbn; auto. Qed.

Lemma to_uint_normal q : Decimal.unorm (Pos.to_uint q) = Pos.to_uint q.
Proof.
  rewrite <- (DecimalPos.Unsigned.to_of (Pos.to_uint q)).
  rewrite DecimalPos.Unsigned.of_to. reflexivity.
Qed.

Lemma to_uint_no_leading_zero q u : Pos.to_uint q <> Decimal.D0 u.
Proof.
  intros E. pose proof (to_uint_normal q) as Hn. rewrite E in Hn.
  rewrite DecimalFacts.unorm_D0 in Hn.
  destruct (Decimal.nzhead u) eqn:Ez;
    [ apply (DecimalPos.Unsigned.to_uint_nonzero q); rewrite E, <- Hn;
      apply DecimalFacts.unorm_0; exact Ez
    | rewrite DecimalFacts.unorm_nzhead in Hn by (rewrite Ez; discriminate);
      exact (DecimalFacts.nzhead_nonzero _ _ Hn) .. ].
Qed.

(** [str] of a non-negative int is an unsigned decimal numeral, and the
    numeral denotes the int. *)
Lemma str_int_nonneg p :
  (0 <= p)%Z ->
  unsigned_numeral (str_int p) = true /\
  numeral_value (str_int p) = Some (Z.to_N p).
Proof.
  intros Hp. destruct p as [|q|q]; [split; reflexivity | | lia].
  unfold str_int, numeral_value. cbn [Z.to_int NilZero.string_of_int Z.to_N].
  split.
  - pose proof (all_digits_string_of_uint (Pos.to_uint q)) as Hd.
    pose proof (to_uint_no_leading_zero q) as Hz.
    pose proof (DecimalPos.Unsigned.to_uint_nonnil q) as Hnil.
    unfold NilZero.string_of_uint.
    destruct (Pos.to_uint q) as [|u|u|u|u|u|u|u|u|u|u];
      try contradiction; try (exfalso; eapply Hz; reflexivity);
      cbn in Hd |- *; rewrite Hd; reflexivity.
  - rewrite NilZero.usu by apply DecimalPos.Unsigned.to_uint_nonnil.
    cbn. unfold N.of_uint. rewrite DecimalPos.Unsigned.of_to. reflexivity.
Qed.

(** [str] of a negative int starts with a minus sign. *)
Lemma str_int_neg p :
  (p < 0)%Z -> str_int p = "-" +:+ str_int (- p).
Proof. intros Hp. destruct p as [|q|q]; try lia. reflexivity. Qed.

Lemma unsigned_numeral_no_sign s t :
  unsigned_numeral s = true -> s <> "-" +:+ t.
Proof.
  intros H ->. cbn in H. discriminate H.
Qed.

Section Properties.

Variable float : Type.
Variable rt : runtime float.

Implicit Types (d r v x : value float) (fmt : string).
Implicit Types (e : list (string * value float)).
Implicit Types (recs : list (value float)) (items : list (list (value float))).

(** ** The interpreter operations on mappings *)

Lemma py_getitem_attr r k x :
  attr k r = Some x -> py_getitem rt r k = Ok x.
Proof.
  destruct r; simpl; try discriminate.
  intros ->. reflexivity.
Qed.

Lemma py_getitem_ok_inv r k x :
  py_getitem rt r k = Ok x -> attr k r = Some x.
Proof.
  destruct r; simpl; try discriminate.
  destruct (assoc k d); intros E; inversion E; reflexivity.
Qed.

Lemma py_getitem_missing e k :
  assoc k e = None -> py_getitem rt (VDict e) k = Raise (KeyError k).
Proof. simpl. intros ->. reflexivity. Qed.

(** ** Finding the records *)

Lemma find_records_path d v :
  get_path records_path d = Some v -> find_records rt d = Ok v.
Proof.
  unfold records_path. simpl.
  destruct d as [| | | | |l|e]; try discriminate.
  destruct (assoc "Result" e) as [r|] eqn:E1; [|discriminate].
  destruct r as [| | | | |l|e1]; try discriminate.
  destruct (assoc "CustomHostRecords" e1) as [c|] eqn:E2; [|discriminate].
  destruct c as [| | | | |l|e2]; try discriminate.
  destruct (assoc "Records" e2) as [x|] eqn:E3; [|discriminate].
  intros [= ->]. unfold find_records.
  cbn. rewrite E1. cbn. rewrite E2. cbn. rewrite E3. reflexivity.
Qed.

(** One level of lines 67-69 on a value that is not a mapping: the
    membership test or the subscript raises, or the test is false. *)
Lemma guarded_lookup_not_mapping {A} x k (K : value float -> result A) :
  (forall e, x <> VDict e) ->
  exists err,
    (b ← py_contains rt k x;
     if negb b then Raise unexpected_format
     else y ← py_getitem rt x k; K y) = Raise err /\
    (err = unexpected_format \/ exists m, err = TypeError m).
Proof.
  intros Hx. destruct x as [| | | | s | l | e]; cbn; unfold type_error; eauto.
  - destruct (is_substring k s); cbn; unfold type_error; eauto.
  - destruct (existsb _ l); cbn; unfold type_error; eauto.
  - exfalso. eapply Hx. reflexivity.
Qed.

Lemma bind_ok {A} (m : result A) : (a ← m; Ok a) = m.
Proof. destruct m; reflexivity. Qed.

Lemma not_mapping_cases x :
  {e | x = VDict e} + {forall e, x <> VDict e}.
Proof. destruct x; try (right; discriminate). left. eauto. Qed.

(** What lines 67-72 do on every document: the records when the path is
    there, and otherwise an exception, the one of line 72 unless a value
    that is not a mapping is met on the way. *)
Lemma find_records_cases d :
  match get_path records_path d with
  | Some v => find_records rt d = Ok v
  | None =>
      exists err,
        find_records rt d = Raise err /\
        (err = unexpected_format \/ exists m, err = TypeError m) /\
        (mappings_along records_path d = true -> err = unexpected_format)
  end.
Proof.
  destruct (get_path records_path d) as [v|] eqn:E;
    [ apply find_records_path; exact E | ].
  unfold find_records.
  destruct (not_mapping_cases d) as [[e ->] | Hd].
  2: { edestruct (guarded_lookup_not_mapping (A := value float) d "Result")
         as (err & H & Hor); [exact Hd|].
       exists err. split; [exact H|]. split; [exact Hor|].
       destruct d; try discriminate. exfalso. eapply Hd. reflexivity. }
  cbn in E |- *. destruct (assoc "Result" e) as [r|] eqn:E1; cbn.
  2: { exists unexpected_format. eauto. }
  destruct (not_mapping_cases r) as [[e1 ->] | Hr].
  2: { edestruct (guarded_lookup_not_mapping (A := value float) r
                    "CustomHostRecords") as (err & H & Hor); [exact Hr|].
       exists err. split; [exact H|]. split; [exact Hor|].
       destruct r; try discriminate. exfalso. eapply Hr. reflexivity. }
  cbn in E |- *. destruct (assoc "CustomHostRecords" e1) as [c|] eqn:E2; cbn.
  2: { exists unexpected_format. eauto. }
  destruct (not_mapping_cases c) as [[e2 ->] | Hc].
  2: { destruct (guarded_lookup_not_mapping c "Records" Ok Hc)
         as (err & H & Hor).
       exists err. split.
       - rewrite <- H. destruct (py_contains rt "Records" c) as [[]|]; cbn;
           [ symmetry; apply bind_ok | reflexivity | reflexivity ].
       - split; [exact Hor|].
         destruct c; try discriminate. exfalso. eapply Hc. reflexivity. }
  cbn in E |- *. destruct (assoc "Records" e2) as [x|] eqn:E3; cbn.
  - discriminate.
  - exists unexpected_format. eauto.
Qed.

(** ** The apex domain *)

Lemma domain_name_path d v :
  domain_name rt d = Ok v <-> get_path domain_path d = Some v.
Proof.
  unfold domain_name, domain_path. split.
  - intros H. destruct d as [| | | | | |e]; try discriminate H.
    cbn in H |- *. destruct (assoc "Result" e) as [r|]; [|discriminate H].
    cbn in H. destruct r as [| | | | | |e1]; try discriminate H.
    cbn in H |- *.
    destruct (assoc "DomainBasicDetails" e1) as [b|]; [|discriminate H].
    cbn in H. destruct b as [| | | | | |e2]; try discriminate H.
    cbn in H |- *. destruct (assoc "DomainName" e2); congruence.
  - intros H. destruct d as [| | | | | |e]; try discriminate H.
    cbn in H |- *. destruct (assoc "Result" e) as [r|]; [|discriminate H].
    cbn. destruct r as [| | | | | |e1]; try discriminate H.
    cbn in H |- *.
    destruct (assoc "DomainBasicDetails" e1) as [b|]; [|discriminate H].
    cbn. destruct b as [| | | | | |e2]; try discriminate H.
    cbn in H |- *. destruct (assoc "DomainName" e2); congruence.
Qed.

Lemma domain_name_lacking d :
  get_path domain_path d = None -> exists err, domain_name rt d = Raise err.
Proof.
  intros H. destruct (domain_name rt d) as [v|err] eqn:E; [|eauto].
  apply domain_name_path in E. congruence.
Qed.

(** ** One turn of the loop *)

Lemma loop_body_normalizes d fmt r item :
  loop_body rt d fmt r = Ok (Some item) -> normalizes rt d fmt r item.
Proof.
  intros H. unfold loop_body in H.
  destruct (py_getitem rt r "IsActive") as [a|] eqn:Ea; cbn in H; [|discriminate].
  destruct (py_bool rt a) eqn:Eb; cbn in H; [|discriminate].
  destruct (py_getitem rt r "RecordType") as [code|] eqn:Ec; cbn in H; [|discriminate].
  unfold in_record_types, record_types_getitem in H.
  destruct (table_entry rt code) as [[name|]|] eqn:Et; cbn in H; try discriminate.
  destruct (py_getitem rt r "Data") as [data|] eqn:Ed; cbn in H; [|discriminate].
  destruct (py_getitem rt r "Host") as [host|] eqn:Eh; cbn in H; [|discriminate].
  apply py_getitem_ok_inv in Ea, Ec, Ed, Eh.
  assert (exists val h ttl,
    computed_value rt name data (attr "Priority" r) = Some val /\
    computed_host rt fmt host (get_path domain_path d) = Some h /\
    attr "Ttl" r = Some ttl /\
    item = [h; VStr (py_str rt ttl); VStr "IN"; VStr name; val])
    as (val & h & ttl & Hv & Hh & Ht & ->).
  { destruct (String.eqb name "MX") eqn:Emx;
      [ destruct (py_getitem rt r "Priority") as [p|] eqn:Ep; cbn in H;
          [apply py_getitem_ok_inv in Ep | discriminate]
      | destruct (String.eqb name "TXT") eqn:Etxt; cbn in H ].
    all: destruct (String.eqb fmt "cloudflare") eqn:Ecf;
      [ destruct (domain_name rt d) as [dom|] eqn:Edom; cbn in H;
          [ apply domain_name_path in Edom;
            destruct (py_eq_str host "@") eqn:Eat; cbn in H
          | discriminate ]
      | cbn in H ].
    all: destruct (py_getitem rt r "Ttl") as [ttl|] eqn:Ettl; cbn in H;
      [apply py_getitem_ok_inv in Ettl | discriminate].
    all: injection H as <-.
    all: unfold computed_value, computed_host;
      rewrite Emx, ?Etxt, ?Ep, Ecf, ?Edom; cbn; rewrite ?Eat; eauto 10. }
  econstructor; eauto.
Qed.

Lemma normalizes_loop_body d fmt r item :
  normalizes rt d fmt r item -> loop_body rt d fmt r = Ok (Some item).
Proof.
  intros [a code name data host ttl val h Ha Hb Hc Ht Hd Hh Httl Hv Hho].
  apply py_getitem_attr in Ha, Hc, Hd, Hh, Httl.
  unfold loop_body. rewrite Ha. cbn. rewrite Hb. cbn. rewrite Hc. cbn.
  unfold in_record_types, record_types_getitem. rewrite Ht. cbn.
  rewrite Hd. cbn. rewrite Hh. cbn.
  unfold computed_value in Hv. unfold computed_host in Hho.
  assert (Hdom : forall dom, get_path domain_path d = Some dom ->
                             domain_name rt d = Ok dom)
    by (intros dom; apply domain_name_path).
  destruct (String.eqb name "MX");
    [ destruct (attr "Priority" r) as [p|] eqn:Ep; [|discriminate];
      apply py_getitem_attr in Ep; rewrite Ep; cbn in Hv |- *
    | destruct (String.eqb name "TXT"); cbn in Hv |- * ].
  all: injection Hv as <-.
  all: destruct (String.eqb fmt "cloudflare");
    [ destruct (get_path domain_path d) as [dom|]; [|discriminate];
      rewrite (Hdom dom eq_refl); cbn in Hho |- *;
      destruct (py_eq_str host "@"); cbn
    | cbn ].
  all: injection Hho as <-; rewrite Httl; reflexivity.
Qed.

Lemma loop_body_emitted d fmt r item :
  emitted rt d fmt r item <-> normalizes rt d fmt r item.
Proof.
  split; [apply loop_body_normalizes | apply normalizes_loop_body].
Qed.

(** The two [continue]s: an entry whose [IsActive] is false, and an
    active one whose [RecordType] finds no entry of the table, are skipped
    whatever else they hold. *)
Lemma loop_body_inactive d fmt r a :
  attr "IsActive" r = Some a -> py_bool rt a = false ->
  loop_body rt d fmt r = Ok None.
Proof.
  intros Ha Hb. apply py_getitem_attr in Ha.
  unfold loop_body. rewrite Ha. cbn. rewrite Hb. reflexivity.
Qed.

Lemma loop_body_unknown d fmt r a code :
  attr "IsActive" r = Some a -> py_bool rt a = true ->
  attr "RecordType" r = Some code -> table_entry rt code = Ok None ->
  loop_body rt d fmt r = Ok None.
Proof.
  intros Ha Hb Hc Ht. apply py_getitem_attr in Ha, Hc.
  unfold loop_body. rewrite Ha. cbn. rewrite Hb. cbn. rewrite Hc. cbn.
  unfold in_record_types. rewrite Ht. reflexivity.
Qed.

Lemma table_entry_int c : table_entry rt (VInt c) = Ok (RECORD_TYPES !! c).
Proof. reflexivity. Qed.

(** ** The loop *)

Lemma filter_emits_cons d fmt r recs :
  List.filter (emits rt d fmt) (r :: recs) =
  match loop_body rt d fmt r with
  | Ok (Some _) => r :: List.filter (emits rt d fmt) recs
  | _ => List.filter (emits rt d fmt) recs
  end.
Proof.
  cbn [List.filter]. unfold emits at 1.
  destruct (loop_body rt d fmt r) as [[item|]|]; reflexivity.
Qed.

Lemma for_records_ok_inv d fmt recs : forall acc items,
  for_records rt d fmt recs acc = Ok items ->
  exists out,
    items = acc ++ out /\
    Forall2 (emitted rt d fmt) (List.filter (emits rt d fmt) recs) out /\
    Forall (fun r => is_ok (loop_body rt d fmt r) = true) recs.
Proof.
  induction recs as [|r recs IH]; intros acc items H; cbn in H.
  - injection H as <-. exists []. rewrite app_nil_r. auto.
  - rewrite filter_emits_cons.
    destruct (loop_body rt d fmt r) as [[item|]|] eqn:Er; cbn in H;
      [ | | discriminate ].
    + destruct (IH _ _ H) as (out & -> & HF & HA).
      exists (item :: out). rewrite <- app_assoc. cbn.
      repeat split; auto. constructor; auto. rewrite Er. reflexivity.
    + destruct (IH _ _ H) as (out & -> & HF & HA).
      exists out. repeat split; auto. constructor; auto. rewrite Er. reflexivity.
Qed.

Lemma for_records_ok d fmt recs :
  Forall (fun r => is_ok (loop_body rt d fmt r) = true) recs ->
  forall acc, exists out,
    for_records rt d fmt recs acc = Ok (acc ++ out) /\
    Forall2 (emitted rt d fmt) (List.filter (emits rt d fmt) recs) out.
Proof.
  induction 1 as [|r recs Hr _ IH]; intros acc.
  - exists []. rewrite app_nil_r. cbn. auto.
  - rewrite filter_emits_cons. cbn [for_records].
    destruct (loop_body rt d fmt r) as [[item|]|] eqn:Er; [ | | discriminate Hr ];
      cbn.
    + destruct (IH (acc ++ [item])) as (out & -> & HF).
      exists (item :: out). rewrite <- app_assoc. cbn. split; auto.
    + destruct (IH acc) as (out & -> & HF). exists out. auto.
Qed.

(** The first turn that raises ends the loop with its exception. *)
Lemma for_records_raise d fmt pre r post err : forall acc,
  Forall (fun r => is_ok (loop_body rt d fmt r) = true) pre ->
  loop_body rt d fmt r = Raise err ->
  for_records rt d fmt (pre ++ r :: post) acc = Raise err.
Proof.
  induction pre as [|p pre IH]; intros acc Hpre Hr; cbn.
  - rewrite Hr. reflexivity.
  - inversion Hpre as [|? ? Hp Hpre']; subst.
    destruct (loop_body rt d fmt p) as [o|]; [|discriminate Hp]. cbn.
    apply IH; assumption.
Qed.

(** ** [parse_dns_info] on a list of entries *)

Lemma parse_dns_info_entries d fmt recs :
  get_path records_path d = Some (VList recs) -> recs <> [] ->
  parse_dns_info rt d fmt = for_records rt d fmt recs [].
Proof.
  intros Hp Hne. unfold parse_dns_info.
  rewrite (find_records_path _ _ Hp). cbn.
  destruct recs; [contradiction|]. reflexivity.
Qed.

(** A result is returned only for a non-empty list of entries: [None], a
    number, an empty container stop before the loop, and a text or a
    mapping at the first turn, on a str. *)
Lemma parse_dns_info_ok_inv d fmt items :
  parse_dns_info rt d fmt = Ok items ->
  exists recs,
    get_path records_path d = Some (VList recs) /\ recs <> [] /\
    for_records rt d fmt recs [] = Ok items.
Proof.
  intros H. unfold parse_dns_info in H.
  pose proof (find_records_cases d) as Hc.
  destruct (get_path records_path d) as [v|].
  2: { destruct Hc as (err & Hc & _). rewrite Hc in H. discriminate. }
  rewrite Hc in H. cbn in H.
  destruct v as [| | | | s | l | e]; try discriminate H.
  - destruct s as [|c s]; [discriminate H|]. discriminate H.
  - destruct l as [|r l]; [discriminate H|].
    exists (r :: l). split; [reflexivity|]. split; [discriminate|]. exact H.
  - destruct e as [|[k x] e]; [discriminate H|]. discriminate H.
Qed.

Lemma parse_dns_info_emitted d fmt recs items :
  get_path records_path d = Some (VList recs) ->
  parse_dns_info rt d fmt = Ok items ->
  Forall2 (normalizes rt d fmt) (List.filter (emits rt d fmt) recs) items.
Proof.
  intros Hp H.
  destruct (parse_dns_info_ok_inv _ _ _ H) as (recs' & Hp' & _ & Hf).
  rewrite Hp in Hp'. injection Hp' as <-.
  destruct (for_records_ok_inv _ _ _ _ _ Hf) as (out & -> & HF & _).
  cbn. eapply Forall2_impl; [exact HF|].
  intros r item. apply loop_body_normalizes.
Qed.

(** ** Failures before the loop *)

(** C6 (amended).  A document that does not hold the path
    Result.CustomHostRecords.Records makes [parse_dns_info] raise, so that
    no record is returned, under either format.  The exception is the
    [KeyError] of line 72 ("JSON is in an unexpected format") whenever the
    values met on the way down the path are mappings; a value that is not
    a mapping can make the membership test or the subscript raise a
    [TypeError] instead. *)
Theorem missing_records_path_fails d fmt :
  get_path records_path d = None ->
  exists err,
    parse_dns_info rt d fmt = Raise err /\
    (err = unexpected_format \/ exists m, err = TypeError m) /\
    (mappings_along records_path d = true -> err = unexpected_format).
Proof.
  intros Hp. pose proof (find_records_cases d) as Hc. rewrite Hp in Hc.
  destruct Hc as (err & Hf & Hor & Hm).
  exists err. unfold parse_dns_info. rewrite Hf. auto.
Qed.

(** C7.  A document whose Result.CustomHostRecords.Records is a sequence
    with no element makes [parse_dns_info] raise the exception of line 75
    ("No DNS records found in JSON"): no record is returned. *)
Theorem empty_records_fail d fmt :
  get_path records_path d = Some (VList []) ->
  parse_dns_info rt d fmt = Raise no_records.
Proof.
  intros Hp. unfold parse_dns_info.
  rewrite (find_records_path _ _ Hp). reflexivity.
Qed.

(** ** The fields of the records *)

Lemma py_eq_str_true x s : py_eq_str x s = true <-> x = VStr s.
Proof.
  destruct x; cbn; try (split; discriminate).
  rewrite String.eqb_eq. split; congruence.
Qed.

Lemma py_str_text s : py_str rt (VStr s) = s.
Proof. reflexivity. Qed.

Lemma py_str_int n : py_str rt (VInt n) = str_int n.
Proof. reflexivity. Qed.

(** C2.  Under the cloudflare format, every record of the output, taken
    with the entry it was made from: the document holds an apex domain
    name under Result.DomainBasicDetails.DomainName; if the entry's Host
    is "@" the host field is that domain name as it is; otherwise it is
    the text of Host, ".", the text of the domain name and a final ".". *)
Theorem cloudflare_host d recs items :
  get_path records_path d = Some (VList recs) ->
  parse_dns_info rt d "cloudflare" = Ok items ->
  Forall2
    (fun r item =>
       exists host dom,
         attr "Host" r = Some host /\
         get_path domain_path d = Some dom /\
         (host = VStr "@" -> host_field item = dom) /\
         (host <> VStr "@" ->
          host_field item =
          VStr (py_str rt host +:+ "." +:+ py_str rt dom +:+ ".")))
    (List.filter (emits rt d "cloudflare") recs) items.
Proof.
  intros Hp H.
  eapply Forall2_impl; [exact (parse_dns_info_emitted _ _ _ _ Hp H)|].
  intros r item [a code name data host ttl val h _ _ _ _ _ Hh _ _ Hho].
  unfold computed_host in Hho.
  destruct (get_path domain_path d) as [dom|]; cbn in Hho; [|discriminate Hho].
  injection Hho as <-.
  exists host, dom. repeat split; auto.
  - intros ->. reflexivity.
  - intros Hne. cbn.
    destruct (py_eq_str host "@") eqn:E; [|reflexivity].
    apply py_eq_str_true in E. contradiction.
Qed.

(** C5.  Every record of the output, taken with the entry it was made
    from, is the list of five fields: the host; the text of the entry's
    Ttl, which for an int is its decimal numeral; the constant "IN"; the
    name the table gives for the entry's RecordType; the computed value.
    The third field is "IN" under every format, and under the default
    format the host field is the entry's Host as it is, "@" included. *)
Theorem record_fields d fmt recs items :
  get_path records_path d = Some (VList recs) ->
  parse_dns_info rt d fmt = Ok items ->
  Forall2
    (fun r item =>
       exists host ttl code data name h val,
         attr "Host" r = Some host /\
         attr "Ttl" r = Some ttl /\
         attr "RecordType" r = Some code /\
         attr "Data" r = Some data /\
         table_entry rt code = Ok (Some name) /\
         (forall c, code = VInt c -> RECORD_TYPES !! c = Some name) /\
         computed_value rt name data (attr "Priority" r) = Some val /\
         item = [h; VStr (py_str rt ttl); VStr "IN"; VStr name; val] /\
         (forall n, ttl = VInt n -> ttl_field item = VStr (str_int n)) /\
         class_field item = VStr "IN" /\
         (fmt = "default" -> host_field item = host))
    (List.filter (emits rt d fmt) recs) items.
Proof.
  intros Hp H.
  eapply Forall2_impl; [exact (parse_dns_info_emitted _ _ _ _ Hp H)|].
  intros r item [a code name data host ttl val h _ _ Hc Ht Hd Hh Httl Hv Hho].
  exists host, ttl, code, data, name, h, val.
  repeat split; auto.
  - intros c ->. rewrite table_entry_int in Ht. congruence.
  - intros n ->. reflexivity.
  - intros ->. unfold computed_host in Hho. cbn in Hho.
    injection Hho as <-. reflexivity.
Qed.

(** C4.  Every record of the output whose type name is TXT, taken with
    the entry it was made from: the value field is the text of the entry's
    Data with one double-quote character before it and one after it, and
    nothing else changed: the text is two characters longer and the
    characters between the two quotes are those of Data, any double quote
    among them included. *)
Theorem txt_value d fmt recs items :
  get_path records_path d = Some (VList recs) ->
  parse_dns_info rt d fmt = Ok items ->
  Forall2
    (fun r item =>
       type_field item = VStr "TXT" ->
       exists data t,
         attr "Data" r = Some data /\
         value_field item = VStr t /\
         t = dquote +:+ py_str rt data +:+ dquote /\
         String.length t = S (S (String.length (py_str rt data))) /\
         substring 1 (String.length (py_str rt data)) t = py_str rt data /\
         (forall s, data = VStr s -> t = dquote +:+ s +:+ dquote))
    (List.filter (emits rt d fmt) recs) items.
Proof.
  intros Hp H.
  eapply Forall2_impl; [exact (parse_dns_info_emitted _ _ _ _ Hp H)|].
  intros r item [a code name data host ttl val h _ _ _ _ Hd _ _ Hv _] Hty.
  injection Hty as ->. cbn in Hv. injection Hv as <-.
  exists data, (dquote +:+ py_str rt data +:+ dquote).
  repeat split; auto.
  - rewrite !length_app_text. cbn. lia.
  - change (dquote +:+ py_str rt data +:+ dquote)
      with (String "034" (py_str rt data +:+ dquote)).
    cbn. apply substring_prefix.
  - intros s ->. reflexivity.
Qed.

(** C3 (amended).  Every record of the output whose type name is MX, taken
    with the entry it was made from: the value field is the text of the
    entry's Priority, one space, and the text of the entry's Data.  The
    text of an int Priority that is not negative is its decimal numeral,
    with no leading zero and no sign; that of a negative one is a minus
    sign before the numeral of its absolute value. *)
Theorem mx_value d fmt recs items :
  get_path records_path d = Some (VList recs) ->
  parse_dns_info rt d fmt = Ok items ->
  Forall2
    (fun r item =>
       type_field item = VStr "MX" ->
       exists priority data,
         attr "Priority" r = Some priority /\
         attr "Data" r = Some data /\
         value_field item =
           VStr (py_str rt priority +:+ " " +:+ py_str rt data) /\
         (forall p, priority = VInt p -> (0 <= p)%Z ->
            unsigned_numeral (py_str rt priority) = true /\
            numeral_value (py_str rt priority) = Some (Z.to_N p)) /\
         (forall p, priority = VInt p -> (p < 0)%Z ->
            py_str rt priority = "-" +:+ str_int (- p)))
    (List.filter (emits rt d fmt) recs) items.
Proof.
  intros Hp H.
  eapply Forall2_impl; [exact (parse_dns_info_emitted _ _ _ _ Hp H)|].
  intros r item [a code name data host ttl val h _ _ _ _ Hd _ _ Hv _] Hty.
  injection Hty as ->. cbn in Hv.
  destruct (attr "Priority" r) as [priority|]; [|discriminate Hv].
  cbn in Hv. injection Hv as <-.
  exists priority, data. repeat split; auto.
  - subst priority. apply str_int_nonneg. assumption.
  - subst priority. apply str_int_nonneg. assumption.
  - intros p -> Hneg. apply str_int_neg. assumption.
Qed.

(** ** Which entries give a record *)

Lemma has_attr_some k r : has_attr k r = true -> exists x, attr k r = Some x.
Proof. unfold has_attr. destruct (attr k r); [eauto | discriminate]. Qed.

(** A complete entry is skipped or normalized, according to [selected]. *)
Lemma complete_entry_loop_body d fmt r :
  complete_entry r = true ->
  (fmt = "cloudflare" -> selected r = true ->
   is_Some (get_path domain_path d)) ->
  if selected r then exists item, loop_body rt d fmt r = Ok (Some item)
  else loop_body rt d fmt r = Ok None.
Proof.
  unfold complete_entry, selected, is_active, type_name_of.
  intros Hc Hdom.
  destruct (attr "IsActive" r) as [[|[]| | | | |]|] eqn:Ea; try discriminate Hc.
  2: { cbn. eapply loop_body_inactive; [exact Ea | reflexivity]. }
  destruct (attr "RecordType" r) as [[| |c| | | |]|] eqn:Ec; try discriminate Hc.
  destruct (RECORD_TYPES !! c) as [name|] eqn:En.
  2: { cbn. eapply loop_body_unknown; [exact Ea | reflexivity | exact Ec |].
       rewrite table_entry_int, En. reflexivity. }
  cbn.
  apply andb_prop in Hc as [Hc Hprio]. apply andb_prop in Hc as [Hc Httl].
  apply andb_prop in Hc as [Hdata Hhost].
  apply has_attr_some in Hdata as [data Hdata].
  apply has_attr_some in Hhost as [host Hhost].
  apply has_attr_some in Httl as [ttl Httl].
  assert (exists val, computed_value rt name data (attr "Priority" r) = Some val)
    as [val Hval].
  { unfold computed_value. destruct (String.eqb name "MX").
    - apply has_attr_some in Hprio as [p ->]. cbn. eauto.
    - destruct (String.eqb name "TXT"); eauto. }
  assert (exists h, computed_host rt fmt host (get_path domain_path d) = Some h)
    as [h Hh].
  { unfold computed_host. destruct (String.eqb fmt "cloudflare") eqn:Ef; [|eauto].
    apply String.eqb_eq in Ef. destruct (Hdom Ef eq_refl) as [dom ->].
    cbn. eauto. }
  eexists. apply normalizes_loop_body.
  econstructor; eauto. rewrite table_entry_int, En. reflexivity.
Qed.

(** C1 (amended).  For every document that holds under
    Result.CustomHostRecords.Records a non-empty list of entries, each of
    them complete (a mapping with a boolean IsActive; if it is active, an
    integer RecordType; Data, Host and Ttl if that type is a key of the
    table, and Priority if it is MX), and that holds the DomainName
    path when the format is cloudflare and some entry is selected:
    [parse_dns_info] returns; its output has exactly one record for each
    entry that is active and whose RecordType is a key of the table, in
    the order of these entries, and none for any other entry, which is
    skipped without failure. *)
Theorem parse_dns_info_selected d fmt recs :
  get_path records_path d = Some (VList recs) ->
  recs <> [] ->
  forallb complete_entry recs = true ->
  (fmt = "cloudflare" -> List.filter selected recs <> [] ->
   is_Some (get_path domain_path d)) ->
  exists items,
    parse_dns_info rt d fmt = Ok items /\
    Forall2 (normalizes rt d fmt) (List.filter selected recs) items /\
    Forall (fun r => selected r = false -> loop_body rt d fmt r = Ok None) recs.
Proof.
  intros Hp Hne Hc Hdom.
  assert (Hall : Forall (fun r =>
            if selected r then exists item, loop_body rt d fmt r = Ok (Some item)
            else loop_body rt d fmt r = Ok None) recs).
  { apply List.Forall_forall. intros r Hr.
    apply complete_entry_loop_body.
    - rewrite forallb_forall in Hc. apply Hc. exact Hr.
    - intros Hf Hs. apply Hdom; [exact Hf|].
      intros E. assert (Hin : In r (List.filter selected recs))
        by (apply filter_In; auto).
      rewrite E in Hin. exact Hin. }
  assert (Hok : Forall (fun r => is_ok (loop_body rt d fmt r) = true) recs).
  { eapply Forall_impl; [exact Hall|]. cbn. intros r Hr.
    destruct (selected r); [destruct Hr as [item ->] | rewrite Hr]; reflexivity. }
  assert (Hsel : List.filter (emits rt d fmt) recs = List.filter selected recs).
  { apply filter_ext_in. intros r Hr.
    rewrite List.Forall_forall in Hall. specialize (Hall r Hr).
    unfold emits. destruct (selected r);
      [destruct Hall as [item ->] | rewrite Hall]; reflexivity. }
  destruct (for_records_ok _ _ _ Hok []) as (out & Hf & HF).
  exists out. rewrite (parse_dns_info_entries _ _ _ Hp Hne).
  split; [exact Hf|]. split.
  - rewrite <- Hsel. eapply Forall2_impl; [exact HF|].
    intros r item. apply loop_body_normalizes.
  - eapply Forall_impl; [exact Hall|]. cbn. intros r Hr Hs.
    rewrite Hs in Hr. exact Hr.
Qed.

(** ** Entries that lack an attribute *)

(** The turn of the loop on a mapping raises [KeyError] on the first
    attribute, in the order the loop reads them, that the mapping lacks. *)
Lemma loop_body_first_missing d fmt e a :
  (fmt = "cloudflare" -> is_Some (get_path domain_path d)) ->
  first_missing rt e = Some a ->
  loop_body rt d fmt (VDict e) = Raise (KeyError a).
Proof.
  intros Hdom H. unfold first_missing, reads, entry_name in H.
  unfold loop_body, in_record_types, record_types_getitem.
  destruct (assoc "IsActive" e) as [act|] eqn:Ea.
  2: { cbn in H. rewrite Ea in H. cbn in H. injection H as <-.
       cbn. rewrite Ea. reflexivity. }
  destruct (py_bool rt act) eqn:Eb.
  2: { cbn in H. rewrite Ea in H. discriminate H. }
  destruct (assoc "RecordType" e) as [code|] eqn:Ec.
  2: { cbn in H. rewrite Ea, Ec in H. cbn in H. injection H as <-.
       cbn. rewrite Ea. cbn. rewrite Eb. cbn. rewrite Ec. reflexivity. }
  destruct (table_entry rt code) as [[name|]|] eqn:Et.
  2,3: cbn in H; rewrite Ea, Ec in H; discriminate H.
  assert (Hd : String.eqb fmt "cloudflare" = true ->
               exists dom, domain_name rt d = Ok dom).
  { intros Ef. apply String.eqb_eq in Ef. destruct (Hdom Ef) as [dom Hdm].
    exists dom. apply domain_name_path. exact Hdm. }
  cbn. rewrite Ea. cbn. rewrite Eb. cbn. rewrite Ec. cbn. rewrite Et. cbn.
  destruct (assoc "Data" e) as [data|] eqn:Ed.
  2: { destruct (String.eqb name "MX"); cbn in H;
         rewrite Ea, Ec, Ed in H; cbn in H; injection H as <-; reflexivity. }
  cbn. destruct (assoc "Host" e) as [host|] eqn:Eh.
  2: { destruct (String.eqb name "MX"); cbn in H;
         rewrite Ea, Ec, Ed, Eh in H; cbn in H; injection H as <-; reflexivity. }
  cbn.
  assert (Hhost : exists h,
    (if String.eqb fmt "cloudflare"
     then domain ← domain_name rt d;
          (if py_eq_str host "@" then Ok domain
           else Ok (VStr (py_str rt host +:+ "." +:+ py_str rt domain +:+ ".")))
     else Ok host) = Ok h).
  { destruct (String.eqb fmt "cloudflare"); [|eauto].
    destruct (Hd eq_refl) as [dom ->]. cbn.
    destruct (py_eq_str host "@"); eauto. }
  destruct (String.eqb name "MX") eqn:Emx.
  - destruct (assoc "Priority" e) as [p|] eqn:Ep.
    2: { cbn in H. rewrite Ea, Ec, Ed, Eh, Ep in H. cbn in H.
         injection H as <-. reflexivity. }
    cbn. destruct Hhost as [h ->]. cbn.
    destruct (assoc "Ttl" e) as [ttl|] eqn:Ettl.
    + cbn in H. rewrite Ea, Ec, Ed, Eh, Ep, Ettl in H. discriminate H.
    + cbn in H. rewrite Ea, Ec, Ed, Eh, Ep, Ettl in H. cbn in H.
      injection H as <-. reflexivity.
  - assert (Hval : exists val,
      (if String.eqb name "TXT"
       then Ok (VStr (dquote +:+ py_str rt data +:+ dquote))
       else Ok data) = Ok val)
      by (destruct (String.eqb name "TXT"); eauto).
    destruct Hval as [val ->]. cbn. destruct Hhost as [h ->]. cbn.
    destruct (assoc "Ttl" e) as [ttl|] eqn:Ettl.
    + cbn in H. rewrite Ea, Ec, Ed, Eh, Ettl in H. discriminate H.
    + cbn in H. rewrite Ea, Ec, Ed, Eh, Ettl in H. cbn in H.
      injection H as <-. reflexivity.
Qed.

(** C10 (amended).  When the loop reaches an entry that is a mapping and
    lacks an attribute the loop reads from it (IsActive; RecordType when
    IsActive is true; Data, Host and Ttl when the type is in the table;
    Priority when it is MX), no earlier entry having failed and the
    DomainName path being there under the cloudflare format,
    [parse_dns_info] raises the [KeyError] of the first such attribute and
    returns no output.  An entry whose IsActive is false, or whose type
    is not in the table, is skipped whatever else it lacks. *)
Theorem incomplete_entry_aborts d fmt pre e post a :
  get_path records_path d = Some (VList (pre ++ VDict e :: post)) ->
  Forall (fun r => is_ok (loop_body rt d fmt r) = true) pre ->
  (fmt = "cloudflare" -> is_Some (get_path domain_path d)) ->
  first_missing rt e = Some a ->
  parse_dns_info rt d fmt = Raise (KeyError a) /\
  In a ["IsActive"; "RecordType"; "Data"; "Host"; "Priority"; "Ttl"] /\
  assoc a e = None /\
  (forall r x, attr "IsActive" r = Some x -> py_bool rt x = false ->
     loop_body rt d fmt r = Ok None) /\
  (forall r x code, attr "IsActive" r = Some x -> py_bool rt x = true ->
     attr "RecordType" r = Some code -> table_entry rt code = Ok None ->
     loop_body rt d fmt r = Ok None).
Proof.
  intros Hp Hpre Hdom Hm. split; [|split; [|split; [|split]]].
  - rewrite (parse_dns_info_entries _ _ _ Hp)
      by (destruct pre; discriminate).
    apply for_records_raise; [exact Hpre|].
    apply loop_body_first_missing; assumption.
  - unfold first_missing in Hm.
    assert (Hin : In a (reads rt e)).
    { destruct (List.filter _ (reads rt e)) as [|a' l] eqn:Ef; [discriminate Hm|].
      injection Hm as ->.
      assert (Hin : In a (List.filter
                (fun a => match assoc a e with None => true | _ => false end)
                (reads rt e))) by (rewrite Ef; left; reflexivity).
      apply filter_In in Hin. tauto. }
    unfold reads in Hin.
    destruct (assoc "IsActive" e) as [x|]; [|cbn in Hin |- *; tauto].
    destruct (py_bool rt x); [|cbn in Hin |- *; tauto].
    destruct (entry_name rt e) as [name|]; [|cbn in Hin |- *; tauto].
    destruct (String.eqb name "MX"); cbn in Hin |- *; tauto.
  - unfold first_missing in Hm.
    destruct (List.filter _ (reads rt e)) as [|a' l] eqn:Ef; [discriminate Hm|].
    injection Hm as ->.
    assert (Hin : In a (List.filter
              (fun a => match assoc a e with None => true | _ => false end)
              (reads rt e))) by (rewrite Ef; left; reflexivity).
    apply filter_In in Hin. destruct Hin as [_ Hin].
    destruct (assoc a e); [discriminate Hin | reflexivity].
  - intros r x. apply loop_body_inactive.
  - intros r x code. apply loop_body_unknown.
Qed.

(** ** The apex domain is read only when a record is made *)

Lemma loop_body_skipped_inv d fmt r :
  loop_body rt d fmt r = Ok None ->
  exists x, attr "IsActive" r = Some x /\
    (py_bool rt x = false \/
     exists code, py_bool rt x = true /\ attr "RecordType" r = Some code /\
                  table_entry rt code = Ok None).
Proof.
  intros H. unfold loop_body in H.
  destruct (py_getitem rt r "IsActive") as [x|] eqn:Ea; cbn in H; [|discriminate].
  apply py_getitem_ok_inv in Ea. exists x. split; [exact Ea|].
  destruct (py_bool rt x) eqn:Eb; cbn in H; [|auto].
  destruct (py_getitem rt r "RecordType") as [code|] eqn:Ec; cbn in H; [|discriminate].
  apply py_getitem_ok_inv in Ec.
  unfold in_record_types, record_types_getitem in H.
  destruct (table_entry rt code) as [[name|]|] eqn:Et; cbn in H;
    [ | eauto 6 | discriminate ].
  exfalso.
  destruct (py_getitem rt r "Data") as [data|]; cbn in H; [|discriminate].
  destruct (py_getitem rt r "Host") as [host|]; cbn in H; [|discriminate].
  destruct (String.eqb name "MX");
    [ destruct (py_getitem rt r "Priority"); cbn in H; [|discriminate]
    | destruct (String.eqb name "TXT"); cbn in H ].
  all: destruct (String.eqb fmt "cloudflare");
    [ destruct (domain_name rt d); cbn in H;
        [destruct (py_eq_str host "@"); cbn in H | discriminate]
    | cbn in H ].
  all: destruct (py_getitem rt r "Ttl"); cbn in H; discriminate.
Qed.

(** A skipped entry is skipped whatever the document and the format. *)
Lemma loop_body_skipped_any d fmt d' fmt' r :
  loop_body rt d fmt r = Ok None -> loop_body rt d' fmt' r = Ok None.
Proof.
  intros H. apply loop_body_skipped_inv in H.
  destruct H as (x & Ha & [Hb | (code & Hb & Hc & Ht)]).
  - eapply loop_body_inactive; eassumption.
  - eapply loop_body_unknown; eassumption.
Qed.

(** Where the default format makes a record, the cloudflare format reads
    the apex domain, and fails as that lookup fails. *)
Lemma loop_body_cloudflare_lacking d r item err :
  domain_name rt d = Raise err ->
  loop_body rt d "default" r = Ok (Some item) ->
  loop_body rt d "cloudflare" r = Raise err.
Proof.
  intros Hd H. apply loop_body_normalizes in H.
  destruct H as [a code name data host ttl val h Ha Hb Hc Ht Hda Hh Httl Hv _].
  apply py_getitem_attr in Ha, Hc, Hda, Hh.
  unfold loop_body. rewrite Ha. cbn. rewrite Hb. cbn. rewrite Hc. cbn.
  unfold in_record_types, record_types_getitem. rewrite Ht. cbn.
  rewrite Hda. cbn. rewrite Hh. cbn.
  unfold computed_value in Hv.
  destruct (String.eqb name "MX");
    [ destruct (attr "Priority" r) as [p|] eqn:Ep; [|discriminate Hv];
      apply py_getitem_attr in Ep; rewrite Ep; cbn
    | destruct (String.eqb name "TXT"); cbn ].
  all: rewrite Hd; reflexivity.
Qed.

Lemma for_records_cloudflare_lacking d err recs : forall acc items,
  domain_name rt d = Raise err ->
  for_records rt d "default" recs acc = Ok items ->
  (items = acc /\ for_records rt d "cloudflare" recs acc = Ok acc) \/
  (length acc < length items /\
   for_records rt d "cloudflare" recs acc = Raise err).
Proof.
  induction recs as [|r recs IH]; intros acc items Hd H.
  - cbn in H. injection H as <-. left. auto.
  - cbn [for_records] in H |- *.
    destruct (loop_body rt d "default" r) as [[item|]|] eqn:Er; cbn in H;
      [ | | discriminate H ].
    + right. rewrite (loop_body_cloudflare_lacking _ _ _ _ Hd Er). cbn.
      split; [|reflexivity].
      destruct (for_records_ok_inv _ _ _ _ _ H) as (out & -> & _).
      rewrite !length_app. cbn. lia.
    + rewrite (loop_body_skipped_any _ _ d "cloudflare" _ Er). cbn.
      apply IH; assumption.
Qed.

Lemma for_records_default_any d d' recs : forall acc,
  for_records rt d "default" recs acc = for_records rt d' "default" recs acc.
Proof.
  induction recs as [|r recs IH]; intros acc; [reflexivity|].
  cbn [for_records].
  replace (loop_body rt d' "default" r) with (loop_body rt d "default" r)
    by reflexivity.
  destruct (loop_body rt d "default" r) as [o|]; cbn; [apply IH | reflexivity].
Qed.

(** Where the cloudflare format gets through a turn of the loop, so does
    the default format, and it skips the same entries. *)
Lemma loop_body_cloudflare_default d r o :
  loop_body rt d "cloudflare" r = Ok o ->
  is_ok (loop_body rt d "default" r) = true.
Proof.
  intros H. destruct o as [item|].
  - apply loop_body_normalizes in H.
    destruct H as [a code name data host ttl val h Ha Hb Hc Ht Hda Hh Httl Hv _].
    erewrite normalizes_loop_body; [reflexivity|].
    econstructor; eauto.
  - rewrite (loop_body_skipped_any _ _ d "default" _ H). reflexivity.
Qed.

(** C8 (amended).  The path Result.DomainBasicDetails.DomainName is read
    only under the cloudflare format, and only when a record is about to
    be made.  For a document that lacks the path and on which the default
    format returns: if the default output has a record, the cloudflare
    format fails, with the exception of the failed lookup; if every entry
    is skipped, the cloudflare format returns the empty output too.  So,
    lacking the path, the cloudflare format returns exactly when the
    default format returns no record.  The default format never reads the
    path: its result is the one it gives on the document reduced to its
    records. *)
Theorem domain_name_requirement :
  (forall d items,
     get_path domain_path d = None ->
     parse_dns_info rt d "default" = Ok items ->
     match items with
     | [] => parse_dns_info rt d "cloudflare" = Ok []
     | _ :: _ =>
         exists err, domain_name rt d = Raise err /\
                     parse_dns_info rt d "cloudflare" = Raise err
     end) /\
  (forall d items,
     get_path domain_path d = None ->
     (parse_dns_info rt d "cloudflare" = Ok items <->
      items = [] /\ parse_dns_info rt d "default" = Ok [])) /\
  (forall d records,
     get_path records_path d = Some records ->
     parse_dns_info rt d "default" =
     parse_dns_info rt (records_only records) "default").
Proof.
  assert (Hfirst : forall d items,
     get_path domain_path d = None ->
     parse_dns_info rt d "default" = Ok items ->
     match items with
     | [] => parse_dns_info rt d "cloudflare" = Ok []
     | _ :: _ =>
         exists err, domain_name rt d = Raise err /\
                     parse_dns_info rt d "cloudflare" = Raise err
     end).
  { intros d items Hlack H.
    destruct (domain_name_lacking _ Hlack) as [err Hd].
    destruct (parse_dns_info_ok_inv _ _ _ H) as (recs & Hp & Hne & Hf).
    rewrite (parse_dns_info_entries _ "cloudflare" _ Hp Hne).
    destruct (for_records_cloudflare_lacking _ _ _ _ _ Hd Hf)
      as [[-> Hc] | [Hlen Hc]].
    + exact Hc.
    + destruct items as [|item items]; [cbn in Hlen; lia|]. eauto. }
  split; [exact Hfirst|]. split.
  - intros d items Hlack. split.
    + intros H.
      destruct (parse_dns_info_ok_inv _ _ _ H) as (recs & Hp & Hne & Hf).
      destruct (for_records_ok_inv _ _ _ _ _ Hf) as (out & _ & _ & Hok).
      assert (Hok' : Forall (fun r => is_ok (loop_body rt d "default" r) = true)
                       recs).
      { eapply Forall_impl; [exact Hok|]. cbn. intros r Hr.
        destruct (loop_body rt d "cloudflare" r) as [o|] eqn:Er;
          [|discriminate Hr].
        eapply loop_body_cloudflare_default. exact Er. }
      destruct (for_records_ok _ _ _ Hok' []) as (out' & Hd' & _).
      rewrite <- (parse_dns_info_entries _ "default" _ Hp Hne) in Hd'.
      cbn in Hd'. pose proof (Hfirst d out' Hlack Hd') as Hc.
      destruct out' as [|item out'].
      * rewrite Hc in H. injection H as <-. auto.
      * destruct Hc as (err & _ & Hc). rewrite Hc in H. discriminate H.
    + intros [-> H]. exact (Hfirst d [] Hlack H).
  - intros d records Hp. unfold parse_dns_info.
    rewrite (find_records_path _ _ Hp).
    rewrite (find_records_path (records_only records) records eq_refl).
    cbn. destruct (py_len rt records) as [n|]; cbn; [|reflexivity].
    destruct (n =? 0)%nat; [reflexivity|].
    destruct (py_iter rt records) as [rs|]; cbn; [|reflexivity].
    apply for_records_default_any.
Qed.

(** ** The entry point *)

(** Every exception of the model is an [Exception]: the first [except]
    clause handles them all, and the second one is never reached. *)
Lemma dispatch_first_clause filename err :
  dispatch (handlers rt filename) err = Some ("ERROR: " +:+ exn_str rt err).
Proof. destruct err; reflexivity. Qed.

Lemma main_raise w filename fmt lines err :
  try_body rt w filename fmt = (lines, Some err) ->
  main rt w filename fmt = lines ++ ["ERROR: " +:+ exn_str rt err].
Proof.
  intros H. unfold main. rewrite H, dispatch_first_clause. reflexivity.
Qed.

(** C9 (what the code does).  When the text read from the file is not
    valid JSON, the script prints one line, "ERROR: " followed by the
    decoder's message: the clause of line 125 handles the
    [JSONDecodeError], because it is an [Exception], and the clause of
    line 127, which would name the file, does not run.  The line printed
    does not depend on the file name. *)
Theorem decode_error_line w filename fmt text msg :
  read_file w filename = Ok text ->
  json_loads w text = Raise (JSONDecodeError msg) ->
  main rt w filename fmt = ["ERROR: " +:+ msg].
Proof.
  intros Hr Hj. unfold main, try_body. rewrite Hr, Hj.
  rewrite dispatch_first_clause. reflexivity.
Qed.

End Properties.

(** * Further properties of [parse_dns_info] *)

Section Further.

Variable float : Type.
Variable rt : runtime float.

Implicit Types (d r v x : value float) (fmt : string).
Implicit Types (e : list (string * value float)).
Implicit Types (recs : list (value float)) (items : list (list (value float))).

(** ** The format selector *)

Lemma loop_body_other_format d fmt r :
  String.eqb fmt "cloudflare" = false ->
  loop_body rt d fmt r = loop_body rt d "default" r.
Proof. intros E. unfold loop_body. rewrite E. reflexivity. Qed.

Lemma for_records_other_format d fmt recs : forall acc,
  String.eqb fmt "cloudflare" = false ->
  for_records rt d fmt recs acc = for_records rt d "default" recs acc.
Proof.
  induction recs as [|r recs IH]; intros acc E; [reflexivity|].
  cbn [for_records]. rewrite (loop_body_other_format _ _ _ E).
  destruct (loop_body rt d "default" r) as [o|]; cbn; [apply IH; exact E | reflexivity].
Qed.

(** Line 95 compares the format with 'cloudflare' and nothing else: every
    other text, whether 'default' or not, gives the result of 'default'. *)
Theorem other_format_is_default d fmt :
  fmt <> "cloudflare" ->
  parse_dns_info rt d fmt = parse_dns_info rt d "default".
Proof.
  intros Hne. apply String.eqb_neq in Hne.
  unfold parse_dns_info.
  destruct (find_records rt d) as [records|]; cbn; [|reflexivity].
  destruct (py_len rt records) as [n|]; cbn; [|reflexivity].
  destruct (n =? 0)%nat; [reflexivity|].
  destruct (py_iter rt records) as [rs|]; cbn; [|reflexivity].
  apply for_records_other_format. exact Hne.
Qed.

(** ** What the result depends on *)

Lemma loop_body_same_domain d d' fmt r :
  (fmt = "cloudflare" -> domain_name rt d = domain_name rt d') ->
  loop_body rt d fmt r = loop_body rt d' fmt r.
Proof.
  intros H. unfold loop_body.
  destruct (String.eqb fmt "cloudflare") eqn:E; [|reflexivity].
  apply String.eqb_eq in E. rewrite (H E). reflexivity.
Qed.

Lemma for_records_same_domain d d' fmt recs : forall acc,
  (fmt = "cloudflare" -> domain_name rt d = domain_name rt d') ->
  for_records rt d fmt recs acc = for_records rt d' fmt recs acc.
Proof.
  induction recs as [|r recs IH]; intros acc H; [reflexivity|].
  cbn [for_records]. rewrite (loop_body_same_domain d d' fmt r H).
  destruct (loop_body rt d' fmt r) as [o|]; cbn; [apply IH; exact H | reflexivity].
Qed.

(** Of the document, [parse_dns_info] uses the records it finds and, under
    the cloudflare format, the domain name it finds: two documents on
    which these two lookups end the same way, with a value or with an
    exception, give the same result, whatever else they hold. *)
Theorem rest_of_document_ignored d d' fmt :
  find_records rt d = find_records rt d' ->
  (fmt = "cloudflare" -> domain_name rt d = domain_name rt d') ->
  parse_dns_info rt d fmt = parse_dns_info rt d' fmt.
Proof.
  intros Hr Hd. unfold parse_dns_info. rewrite Hr.
  destruct (find_records rt d') as [records|]; cbn; [|reflexivity].
  destruct (py_len rt records) as [n|]; cbn; [|reflexivity].
  destruct (n =? 0)%nat; [reflexivity|].
  destruct (py_iter rt records) as [rs|]; cbn; [|reflexivity].
  apply for_records_same_domain. exact Hd.
Qed.

Lemma loop_body_same_entry d fmt e1 e2 :
  same_entry e1 e2 ->
  loop_body rt d fmt (VDict e1) = loop_body rt d fmt (VDict e2).
Proof.
  intros H. unfold loop_body, py_getitem.
  rewrite (H "IsActive"), (H "RecordType"), (H "Data"), (H "Host"),
    (H "Priority"), (H "Ttl") by (cbn; tauto).
  reflexivity.
Qed.

Lemma for_records_same_entries d fmt es1 es2 :
  Forall2 same_entry es1 es2 -> forall acc,
  for_records rt d fmt (map VDict es1) acc =
  for_records rt d fmt (map VDict es2) acc.
Proof.
  induction 1 as [|e1 e2 es1 es2 He _ IH]; intros acc; [reflexivity|].
  cbn [map for_records]. rewrite (loop_body_same_entry d fmt e1 e2 He).
  destruct (loop_body rt d fmt (VDict e2)) as [o|]; cbn; [apply IH | reflexivity].
Qed.

(** Of an entry, the loop reads IsActive, RecordType, Data, Host, Priority
    and Ttl: entries that agree on these six attributes, one by one along
    two documents with the same domain lookup, give the same result,
    whatever other attributes they carry and in whatever order. *)
Theorem other_attributes_ignored d d' fmt es1 es2 :
  get_path records_path d = Some (VList (map VDict es1)) ->
  get_path records_path d' = Some (VList (map VDict es2)) ->
  Forall2 same_entry es1 es2 ->
  (fmt = "cloudflare" -> domain_name rt d = domain_name rt d') ->
  parse_dns_info rt d fmt = parse_dns_info rt d' fmt.
Proof.
  intros H1 H2 Hes Hd. unfold parse_dns_info.
  rewrite (find_records_path _ _ _ _ H1), (find_records_path _ _ _ _ H2).
  cbn. rewrite !length_map. rewrite (Forall2_length _ _ _ Hes).
  destruct (length es2 =? 0)%nat; [reflexivity|].
  rewrite (for_records_same_domain d d' fmt _ _ Hd).
  apply for_records_same_entries. exact Hes.
Qed.

(** ** Failures in the loop *)

(** The loop stops at the first entry whose turn raises: the result is
    that exception, the records made from the entries before it are not
    returned, and the entries after it are not looked at. *)
Theorem first_failure_decides d fmt pre r post err :
  get_path records_path d = Some (VList (pre ++ r :: post)) ->
  Forall (fun p => is_ok (loop_body rt d fmt p) = true) pre ->
  loop_body rt d fmt r = Raise err ->
  parse_dns_info rt d fmt = Raise err.
Proof.
  intros Hp Hpre Hr.
  rewrite (parse_dns_info_entries _ _ _ _ _ Hp) by (destruct pre; discriminate).
  apply for_records_raise; assumption.
Qed.

(** An entry of the list that is not a mapping (a text, a number, a list,
    null) makes the subscript of line 79 raise a [TypeError]. *)
Theorem entry_not_mapping_fails d fmt pre r post :
  get_path records_path d = Some (VList (pre ++ r :: post)) ->
  Forall (fun p => is_ok (loop_body rt d fmt p) = true) pre ->
  (forall e, r <> VDict e) ->
  parse_dns_info rt d fmt = Raise (TypeError (type_error_msg rt OpGetItem r)).
Proof.
  intros Hp Hpre Hr.
  rewrite (parse_dns_info_entries _ _ _ _ _ Hp) by (destruct pre; discriminate).
  apply for_records_raise; [exact Hpre|].
  destruct r; try reflexivity. exfalso. eapply Hr. reflexivity.
Qed.

(** An active entry whose RecordType is a list or a mapping is not skipped
    as an unknown type: the membership test of line 83 has to hash it and
    raises a [TypeError]. *)
Theorem unhashable_type_fails d fmt pre e post active code :
  get_path records_path d = Some (VList (pre ++ VDict e :: post)) ->
  Forall (fun p => is_ok (loop_body rt d fmt p) = true) pre ->
  assoc "IsActive" e = Some active -> py_bool rt active = true ->
  assoc "RecordType" e = Some code ->
  (exists l, code = VList l) \/ (exists m, code = VDict m) ->
  parse_dns_info rt d fmt = Raise (TypeError (type_error_msg rt OpHash code)).
Proof.
  intros Hp Hpre Ha Hb Hc Hcode.
  rewrite (parse_dns_info_entries _ _ _ _ _ Hp) by (destruct pre; discriminate).
  apply for_records_raise; [exact Hpre|].
  unfold loop_body. cbn. rewrite Ha. cbn. rewrite Hb. cbn. rewrite Hc. cbn.
  unfold in_record_types, table_entry.
  destruct Hcode as [[l ->] | [m ->]]; reflexivity.
Qed.

(** ** The shape of the records value *)

(** What lines 74-79 do when the value under the path is not a list.  An
    empty text and an empty mapping have length 0 and fail like the empty
    list; null and numbers have no length; a non-empty text or mapping is
    iterated, over its characters or its keys, and the first of them, a
    str, cannot be subscripted with 'IsActive'. *)
Theorem records_not_a_list d fmt records :
  get_path records_path d = Some records ->
  (forall l, records <> VList l) ->
  parse_dns_info rt d fmt =
  match records with
  | VStr EmptyString | VDict [] => Raise no_records
  | VStr (String c _) =>
      Raise (TypeError (type_error_msg rt OpGetItem (VStr (String c EmptyString))))
  | VDict ((k, _) :: _) =>
      Raise (TypeError (type_error_msg rt OpGetItem (VStr k)))
  | _ => Raise (TypeError (type_error_msg rt OpLen records))
  end.
Proof.
  intros Hp Hl. unfold parse_dns_info.
  rewrite (find_records_path _ _ _ _ Hp).
  destruct records as [| | | | s | l | m]; try reflexivity.
  - destruct s; reflexivity.
  - exfalso. eapply Hl. reflexivity.
  - destruct m as [|[k x] m]; reflexivity.
Qed.

(** ** When an entry is skipped *)

(** The loop skips an entry in two cases only: its IsActive is there and
    false as a truth value, or it is true and its RecordType is there, can
    be hashed and finds no entry of the table.  An entry is never skipped
    for lacking Data, Host, Ttl or Priority. *)
Theorem skipped_iff d fmt r :
  loop_body rt d fmt r = Ok None <->
  exists x, attr "IsActive" r = Some x /\
    (py_bool rt x = false \/
     (py_bool rt x = true /\
      exists code, attr "RecordType" r = Some code /\
                   table_entry rt code = Ok None)).
Proof.
  split.
  - intros H. destruct (loop_body_skipped_inv _ _ _ _ _ H)
      as (x & Ha & [Hb | (code & Hb & Hc & Ht)]); eauto 8.
  - intros (x & Ha & [Hb | (Hb & code & Hc & Ht)]).
    + eapply loop_body_inactive; eassumption.
    + eapply loop_body_unknown; eassumption.
Qed.

(** ** The records of the output *)

Lemma record_types_names c name :
  RECORD_TYPES !! c = Some name -> In name type_names.
Proof.
  intros H. unfold RECORD_TYPES in H.
  apply elem_of_list_to_map_2 in H.
  repeat (apply elem_of_cons in H as [H|H];
          [injection H as _ ->; cbn; tauto|]).
  apply elem_of_nil in H. contradiction.
Qed.

Lemma table_entry_names code name :
  table_entry rt code = Ok (Some name) -> In name type_names.
Proof.
  unfold table_entry. destruct (int_key rt code) as [[c|]|]; cbn;
    try discriminate.
  intros [= H]. eapply record_types_names. exact H.
Qed.

(** Every record of the output is a list of exactly five fields; the
    second, third and fourth are texts whatever the entry holds: the text
    of the Ttl, "IN", and one of the ten names of the table. *)
Theorem records_have_five_fields d fmt items :
  parse_dns_info rt d fmt = Ok items ->
  Forall
    (fun item =>
       length item = 5 /\
       (exists t, ttl_field item = VStr t) /\
       class_field item = VStr "IN" /\
       (exists name, type_field item = VStr name /\ In name type_names))
    items.
Proof.
  intros H. destruct (parse_dns_info_ok_inv _ _ _ _ _ H) as (recs & Hp & _ & _).
  pose proof (parse_dns_info_emitted _ _ _ _ _ _ Hp H) as HF.
  clear H Hp.
  induction HF as [|r item rs items' Hn _ IH]; [constructor|].
  constructor; [|exact IH].
  destruct Hn as [a code name data host ttl val h _ _ _ Ht _ _ _ _ _].
  repeat split; eauto. exists name. split; [reflexivity|].
  eapply table_entry_names. exact Ht.
Qed.

(** At most one record per entry: the output is never longer than the
    list of entries. *)
Theorem output_no_longer_than_input d fmt recs items :
  get_path records_path d = Some (VList recs) ->
  parse_dns_info rt d fmt = Ok items ->
  length items = length (List.filter (emits rt d fmt) recs) /\
  length items <= length recs.
Proof.
  intros Hp H.
  pose proof (parse_dns_info_emitted _ _ _ _ _ _ Hp H) as HF.
  apply Forall2_length in HF. split; [symmetry; exact HF|].
  rewrite <- HF. apply List.filter_length_le.
Qed.

(** ** The two formats *)

Lemma normalizes_default_of_cloudflare d r item :
  normalizes rt d "cloudflare" r item ->
  exists host, attr "Host" r = Some host /\
    normalizes rt d "default" r (host :: after_host item).
Proof.
  intros [a code name data host ttl val h Ha Hb Hc Ht Hd Hh Httl Hv _].
  exists host. split; [exact Hh|]. cbn. econstructor; eauto.
Qed.

Lemma for_records_default_of_cloudflare d recs : forall acc acc' items,
  Forall2 (fun a b => after_host a = after_host b) acc acc' ->
  for_records rt d "cloudflare" recs acc = Ok items ->
  exists items',
    for_records rt d "default" recs acc' = Ok items' /\
    Forall2 (fun a b => after_host a = after_host b) items items'.
Proof.
  induction recs as [|r recs IH]; intros acc acc' items Hacc H.
  - cbn in H |- *. injection H as <-. eauto.
  - cbn [for_records] in H |- *.
    destruct (loop_body rt d "cloudflare" r) as [[item|]|] eqn:Er; cbn in H;
      [ | | discriminate H ].
    + apply loop_body_normalizes in Er.
      destruct (normalizes_default_of_cloudflare _ _ _ Er) as (host & _ & Hn).
      apply normalizes_loop_body in Hn. rewrite Hn. cbn.
      apply (IH (acc ++ [item]) (acc' ++ [host :: after_host item]) items);
        [|exact H].
      apply Forall2_app; [exact Hacc|]. constructor; [reflexivity|constructor].
    + rewrite (loop_body_skipped_any _ _ _ _ d "default" _ Er). cbn.
      apply (IH acc acc' items); assumption.
Qed.

(** The two formats differ in the host field only: where the cloudflare
    format returns, the default format returns as many records, in the
    same order, with the same ttl, class, type and value fields. *)
Theorem formats_differ_in_host_only d items :
  parse_dns_info rt d "cloudflare" = Ok items ->
  exists items',
    parse_dns_info rt d "default" = Ok items' /\
    Forall2
      (fun a b =>
         ttl_field a = ttl_field b /\ class_field a = class_field b /\
         type_field a = type_field b /\ value_field a = value_field b)
      items items'.
Proof.
  intros H.
  destruct (parse_dns_info_ok_inv _ _ _ _ _ H) as (recs & Hp & Hne & Hf).
  destruct (for_records_default_of_cloudflare d recs [] [] items
              ltac:(constructor) Hf) as (items' & Hd & HF).
  exists items'. rewrite (parse_dns_info_entries _ _ _ _ _ Hp Hne).
  split; [exact Hd|].
  eapply Forall2_impl; [exact HF|].
  intros a b Hab. unfold after_host in Hab.
  destruct a as [|ha a], b as [|hb b]; cbn in Hab; subst; auto.
Qed.

(** ** Joining two lists of entries *)

Lemma for_records_app d fmt l1 l2 : forall acc,
  for_records rt d fmt (l1 ++ l2) acc =
  (items ← for_records rt d fmt l1 acc; for_records rt d fmt l2 items).
Proof.
  induction l1 as [|r l1 IH]; intros acc; [reflexivity|].
  cbn [app for_records].
  destruct (loop_body rt d fmt r) as [o|]; cbn; [apply IH | reflexivity].
Qed.

Lemma for_records_acc d fmt recs : forall acc,
  for_records rt d fmt recs acc =
  (out ← for_records rt d fmt recs []; Ok (acc ++ out)).
Proof.
  induction recs as [|r recs IH]; intros acc.
  - cbn. rewrite app_nil_r. reflexivity.
  - cbn [for_records].
    destruct (loop_body rt d fmt r) as [[item|]|]; cbn; [ | apply IH | reflexivity ].
    rewrite (IH (acc ++ [item])), (IH [item]).
    destruct (for_records rt d fmt recs []) as [out|]; cbn; [|reflexivity].
    rewrite <- app_assoc. reflexivity.
Qed.

(** The output for a list of entries followed by another list is the
    output for the first followed by the output for the second, the
    documents that hold the three lists giving the same domain name. *)
Theorem output_of_joined_lists d d1 d2 fmt l1 l2 items1 items2 :
  get_path records_path d = Some (VList (l1 ++ l2)) ->
  get_path records_path d1 = Some (VList l1) ->
  get_path records_path d2 = Some (VList l2) ->
  (fmt = "cloudflare" ->
   domain_name rt d1 = domain_name rt d /\ domain_name rt d2 = domain_name rt d) ->
  parse_dns_info rt d1 fmt = Ok items1 ->
  parse_dns_info rt d2 fmt = Ok items2 ->
  parse_dns_info rt d fmt = Ok (items1 ++ items2).
Proof.
  intros Hp Hp1 Hp2 Hd H1 H2.
  destruct (parse_dns_info_ok_inv _ _ _ _ _ H1) as (l1' & Hl1 & Hne1 & Hf1).
  destruct (parse_dns_info_ok_inv _ _ _ _ _ H2) as (l2' & Hl2 & Hne2 & Hf2).
  rewrite Hp1 in Hl1. injection Hl1 as <-.
  rewrite Hp2 in Hl2. injection Hl2 as <-.
  rewrite (for_records_same_domain d1 d fmt) in Hf1 by (intros E; apply Hd, E).
  rewrite (for_records_same_domain d2 d fmt) in Hf2 by (intros E; apply Hd, E).
  rewrite (parse_dns_info_entries _ _ _ _ _ Hp)
    by (destruct l1; [contradiction | discriminate]).
  rewrite for_records_app, Hf1. cbn.
  rewrite for_records_acc, Hf2. reflexivity.
Qed.

(** ** All or nothing *)

(** [parse_dns_info] returns exactly when the value under the path is a
    list with at least one entry and the turn of the loop on every entry
    ends without an exception; one bad entry anywhere in the list is
    enough for no record at all to be returned. *)
Theorem returns_iff d fmt :
  (exists items, parse_dns_info rt d fmt = Ok items) <->
  exists recs,
    get_path records_path d = Some (VList recs) /\ recs <> [] /\
    Forall (fun r => is_ok (loop_body rt d fmt r) = true) recs.
Proof.
  split.
  - intros [items H].
    destruct (parse_dns_info_ok_inv _ _ _ _ _ H) as (recs & Hp & Hne & Hf).
    destruct (for_records_ok_inv _ _ _ _ _ _ _ Hf) as (out & _ & _ & Hok).
    eauto.
  - intros (recs & Hp & Hne & Hok).
    destruct (for_records_ok _ _ _ _ _ Hok []) as (out & Hf & _).
    exists out. rewrite (parse_dns_info_entries _ _ _ _ _ Hp Hne). exact Hf.
Qed.

(** ** Records made of texts *)

(** When the Host and the Data of every entry that gives a record are
    texts, and so is the domain name under the cloudflare format, every
    field of every record of the output is a text. *)
Theorem text_in_text_out d fmt recs items :
  get_path records_path d = Some (VList recs) ->
  parse_dns_info rt d fmt = Ok items ->
  Forall (fun r => forall host data,
            attr "Host" r = Some host -> attr "Data" r = Some data ->
            is_text_value host /\ is_text_value data)
    (List.filter (emits rt d fmt) recs) ->
  (fmt = "cloudflare" ->
   forall dom, get_path domain_path d = Some dom -> is_text_value dom) ->
  exists fields, items = map texts fields.
Proof.
  intros Hp H Htxt Hdom.
  pose proof (parse_dns_info_emitted _ _ _ _ _ _ Hp H) as HF.
  clear H Hp. induction HF as [|r item rs items' Hn _ IH].
  - exists []. reflexivity.
  - inversion Htxt as [|? ? Hr Hrs]; subst.
    destruct (IH Hrs) as [fields ->].
    destruct Hn as [a code name data host ttl val h _ _ _ _ Hd Hh _ Hv Hho].
    destruct (Hr host data Hh Hd) as [[hs ->] [ds ->]].
    assert (exists vs, val = VStr vs) as [vs ->].
    { unfold computed_value in Hv.
      destruct (String.eqb name "MX");
        [ destruct (attr "Priority" r); cbn in Hv; [|discriminate Hv]
        | destruct (String.eqb name "TXT") ];
        injection Hv as <-; eauto. }
    assert (exists s, h = VStr s) as [s ->].
    { unfold computed_host in Hho.
      destruct (String.eqb fmt "cloudflare") eqn:Ef.
      - apply String.eqb_eq in Ef.
        destruct (get_path domain_path d) as [dom|] eqn:Edom; [|discriminate Hho].
        destruct (Hdom Ef dom eq_refl) as [ds' ->].
        cbn in Hho. destruct (String.eqb hs "@"); injection Hho as <-; eauto.
      - injection Hho as <-. eauto. }
    exists ([s; py_str rt ttl; "IN"; name; vs] :: fields). reflexivity.
Qed.

End Further.

(** * Further properties of the entry point *)

Section FurtherMain.

Variable float : Type.
Variable rt : runtime float.

Implicit Types (w : world float) (filename fmt : string).

(** ** Joining the fields *)




(** ** Printing the records *)






(** When the file cannot be read, or [parse_dns_info] raises, the script
    prints one line, "ERROR: " and the text of the exception, and no
    record line. *)
Theorem main_failure_single_line w filename fmt err :
  read_file w filename = Raise err \/
  (exists text dns_info,
     read_file w filename = Ok text /\
     json_loads w text = Ok dns_info /\
     parse_dns_info rt dns_info fmt = Raise err) ->
  main rt w filename fmt = ["ERROR: " +:+ exn_str rt err].
Proof.
  intros [Hr | (text & dns_info & Hr & Hj & Hp)]; unfold main, try_body.
  - rewrite Hr, dispatch_first_clause. reflexivity.
  - rewrite Hr, Hj, Hp, dispatch_first_clause. reflexivity.
Qed.


End FurtherMain.

(** * Properties of the deployment names *)

Section Names.

Import AzureCreate.

Lemma app_text_inj_l a x y : a +:+ x = a +:+ y -> x = y.
Proof.
  induction a as [|c a IH]; [auto|].
  change (String c a +:+ x) with (String c (a +:+ x)).
  change (String c a +:+ y) with (String c (a +:+ y)).
  intros [= H]. auto.
Qed.

Lemma app_text_inj_r b : forall x y, x +:+ b = y +:+ b -> x = y.
Proof.
  assert (Hlen : forall c z, b <> String c (z +:+ b)).
  { intros c z E. apply (f_equal String.length) in E.
    cbn in E. rewrite length_app_text in E. lia. }
  induction x as [|c x IH]; intros [|c' y] E.
  - reflexivity.
  - exfalso. exact (Hlen _ _ E).
  - exfalso. symmetry in E. exact (Hlen _ _ E).
  - change (String c x +:+ b) with (String c (x +:+ b)) in E.
    change (String c' y +:+ b) with (String c' (y +:+ b)) in E.
    injection E as -> E. f_equal. auto.
Qed.

Lemma all_chars_app f a b :
  all_chars f (a +:+ b) = all_chars f a && all_chars f b.
Proof.
  induction a as [|c a IH]; [reflexivity|].
  change (String c a +:+ b) with (String c (a +:+ b)). cbn.
  rewrite IH, andb_assoc. reflexivity.
Qed.

Lemma all_chars_remove_hyphen project_name :
  all_chars storage_char (remove_char "-" project_name) =
  all_chars (fun c => storage_char c || Ascii.eqb c "-") project_name.
Proof.
  induction project_name as [|c s IH]; [reflexivity|]. cbn.
  destruct (Ascii.eqb_spec c "-") as [-> | Hc].
  - cbn. exact IH.
  - cbn. rewrite IH, orb_false_r. reflexivity.
Qed.

Lemma remove_char_gone c s :
  all_chars (fun a => negb (Ascii.eqb a c)) (remove_char c s) = true.
Proof.
  induction s as [|a s IH]; [reflexivity|]. cbn.
  destruct (Ascii.eqb a c) eqn:E; [exact IH|]. cbn. rewrite E. exact IH.
Qed.

(** The three storage names of the configuration hold no hyphen, whatever
    the project name: line 18 takes the hyphens out of the part that comes
    from it, and the fixed parts have none. *)
Theorem storage_names_without_hyphen project_name k :
  In k ["storage_account_name"; "storage_share_name"; "storage_mount_name"] ->
  exists name,
    config_get k (get_config project_name) = Some name /\
    all_chars (fun c => negb (Ascii.eqb c "-")) name = true.
Proof.
  intros Hk. cbn in Hk.
  destruct Hk as [<- | [<- | [<- | []]]]; cbn; eexists; (split; [reflexivity|]);
    rewrite !all_chars_app; unfold storage_project_name;
    rewrite remove_char_gone; reflexivity.
Qed.

(** The storage account name meets the rule quoted on line 17 (3 to 24
    characters, lower-case letters and digits only) exactly when the
    project name is made of lower-case letters, digits and hyphens, with
    at most 12 characters other than hyphens.  Nothing in [get_config]
    checks this. *)
Theorem storage_account_name_valid_iff project_name :
  valid_storage_account_name (storage_account_name project_name) = true <->
  all_chars (fun c => storage_char c || Ascii.eqb c "-") project_name = true /\
  String.length (storage_project_name project_name) <= 12.
Proof.
  unfold valid_storage_account_name.
  change (storage_account_name project_name)
    with ("synai" +:+ storage_project_name project_name +:+ "stoacct").
  rewrite !length_app_text, !all_chars_app.
  change (String.length "synai") with 5.
  change (String.length "stoacct") with 7.
  change (all_chars storage_char "synai") with true.
  change (all_chars storage_char "stoacct") with true.
  unfold storage_project_name. rewrite all_chars_remove_hyphen.
  set (L := String.length (remove_char "-" project_name)).
  set (X := all_chars _ project_name).
  destruct X; cbn [andb]; rewrite ?andb_true_r, ?andb_false_r.
  - rewrite andb_true_iff, !Nat.leb_le. intuition lia.
  - split; [discriminate | intros [H _]; discriminate H].
Qed.

(** Two project names get the same resource group, environment or
    container app only when they are the same name. *)
Theorem project_names_kept_apart project_name project_name' k :
  In k ["resource_group"; "environment_name"; "container_app_name"] ->
  config_get k (get_config project_name) =
  config_get k (get_config project_name') ->
  project_name = project_name'.
Proof.
  intros Hk. cbn in Hk.
  destruct Hk as [<- | [<- | [<- | []]]]; cbn; intros [= H];
    apply app_text_inj_l in H; apply app_text_inj_r in H; exact H.
Qed.

(** Two project names get the same storage account exactly when they are
    the same once their hyphens are taken out: names that differ by
    hyphens only, which are kept apart everywhere else, share their
    storage account, file share and storage mount names. *)
Theorem storage_account_shared_iff project_name project_name' :
  storage_account_name project_name = storage_account_name project_name' <->
  storage_project_name project_name = storage_project_name project_name'.
Proof.
  unfold storage_account_name. cbn. split.
  - intros H. apply app_text_inj_l in H. apply app_text_inj_r in H. exact H.
  - intros ->. reflexivity.
Qed.


End Names.

(** * The properties on the sample documents *)

Section OnSamples.

Import CPython Samples.

(** The eight entries of the sample zone give five records: the inactive
    ones and the one of unknown type are left out, the order is kept. *)
Example zone_default_output :
  parse_dns_info cpython zone "default" = Ok zone_default.
Proof. reflexivity. Qed.

Example zone_cloudflare_output :
  parse_dns_info cpython zone "cloudflare" = Ok zone_cloudflare.
Proof. reflexivity. Qed.

Example zone_kept_records :
  List.filter (emits cpython zone "cloudflare") zone_records = kept_records /\
  List.filter selected zone_records = kept_records.
Proof. split; reflexivity. Qed.

(** The lines printed for the sample zone, fields joined by a tab. *)
Example zone_lines :
  main cpython {| read_file := fun _ => Ok "{...}";
                  json_loads := fun _ => Ok zone |} "data.json" "cloudflare" =
  [ "www.example.com." +:+ tab +:+ "300" +:+ tab +:+ "IN" +:+ tab +:+ "A"
      +:+ tab +:+ "1.2.3.4";
    "example.com" +:+ tab +:+ "1800" +:+ tab +:+ "IN" +:+ tab +:+ "A"
      +:+ tab +:+ "1.2.3.4";
    "example.com" +:+ tab +:+ "3600" +:+ tab +:+ "IN" +:+ tab +:+ "MX"
      +:+ tab +:+ "10 mail.example.com";
    "example.com" +:+ tab +:+ "3600" +:+ tab +:+ "IN" +:+ tab +:+ "TXT"
      +:+ tab +:+ dquote +:+ "v=spf1 include:_spf.example.com ~all" +:+ dquote;
    "note.example.com." +:+ tab +:+ "60" +:+ tab +:+ "IN" +:+ tab +:+ "TXT"
      +:+ tab +:+ dquote +:+ "say " +:+ dquote +:+ "hi" +:+ dquote +:+ dquote ].
Proof. reflexivity. Qed.

(** A structural failure is reported by one line and nothing else. *)
Example empty_entry_line :
  main cpython {| read_file := fun _ => Ok "{...}";
                  json_loads := fun _ => Ok empty_entry_doc |}
       "data.json" "default" =
  ["ERROR: 'IsActive'"].
Proof. reflexivity. Qed.

Lemma parse_dns_info_selected_witness :
  exists items,
    parse_dns_info cpython zone "cloudflare" = Ok items /\
    Forall2 (normalizes cpython zone "cloudflare")
      (List.filter selected zone_records) items /\
    Forall (fun r => selected r = false ->
                     loop_body cpython zone "cloudflare" r = Ok None)
      zone_records.
Proof.
  apply (parse_dns_info_selected float cpython zone "cloudflare" zone_records).
  - reflexivity.
  - discriminate.
  - reflexivity.
  - intros _ _. exists (VStr "example.com"). reflexivity.
Defined.

Lemma cloudflare_host_witness :
  Forall2
    (fun r item =>
       exists host dom,
         attr "Host" r = Some host /\
         get_path domain_path zone = Some dom /\
         (host = VStr "@" -> host_field item = dom) /\
         (host <> VStr "@" ->
          host_field item =
          VStr (py_str cpython host +:+ "." +:+ py_str cpython dom +:+ ".")))
    (List.filter (emits cpython zone "cloudflare") zone_records)
    zone_cloudflare.
Proof.
  apply (cloudflare_host float cpython zone zone_records zone_cloudflare);
    reflexivity.
Defined.

Lemma mx_value_witness :
  Forall2
    (fun r item =>
       type_field item = VStr "MX" ->
       exists priority data,
         attr "Priority" r = Some priority /\
         attr "Data" r = Some data /\
         value_field item =
           VStr (py_str cpython priority +:+ " " +:+ py_str cpython data) /\
         (forall p, priority = VInt p -> (0 <= p)%Z ->
            unsigned_numeral (py_str cpython priority) = true /\
            numeral_value (py_str cpython priority) = Some (Z.to_N p)) /\
         (forall p, priority = VInt p -> (p < 0)%Z ->
            py_str cpython priority = "-" +:+ str_int (- p)))
    (List.filter (emits cpython zone "default") zone_records)
    zone_default.
Proof.
  apply (mx_value float cpython zone "default" zone_records zone_default);
    reflexivity.
Defined.

Lemma txt_value_witness :
  Forall2
    (fun r item =>
       type_field item = VStr "TXT" ->
       exists data t,
         attr "Data" r = Some data /\
         value_field item = VStr t /\
         t = dquote +:+ py_str cpython data +:+ dquote /\
         String.length t = S (S (String.length (py_str cpython data))) /\
         substring 1 (String.length (py_str cpython data)) t
           = py_str cpython data /\
         (forall s, data = VStr s -> t = dquote +:+ s +:+ dquote))
    (List.filter (emits cpython zone "default") zone_records)
    zone_default.
Proof.
  apply (txt_value float cpython zone "default" zone_records zone_default);
    reflexivity.
Defined.

Lemma record_fields_witness :
  Forall2
    (fun r item =>
       exists host ttl code data name h val,
         attr "Host" r = Some host /\
         attr "Ttl" r = Some ttl /\
         attr "RecordType" r = Some code /\
         attr "Data" r = Some data /\
         table_entry cpython code = Ok (Some name) /\
         (forall c, code = VInt c -> RECORD_TYPES !! c = Some name) /\
         computed_value cpython name data (attr "Priority" r) = Some val /\
         item = [h; VStr (py_str cpython ttl); VStr "IN"; VStr name; val] /\
         (forall n, ttl = VInt n -> ttl_field item = VStr (str_int n)) /\
         class_field item = VStr "IN" /\
         ("default" = "default" -> host_field item = host))
    (List.filter (emits cpython zone "default") zone_records)
    zone_default.
Proof.
  apply (record_fields float cpython zone "default" zone_records zone_default);
    reflexivity.
Defined.

Lemma missing_records_path_fails_witness :
  exists err,
    parse_dns_info cpython no_path_doc "default" = Raise err /\
    (err = unexpected_format \/ exists m, err = TypeError m) /\
    (mappings_along records_path no_path_doc = true -> err = unexpected_format).
Proof.
  apply (missing_records_path_fails float cpython no_path_doc "default").
  reflexivity.
Defined.

Lemma empty_records_fail_witness :
  parse_dns_info cpython no_records_doc "cloudflare" = Raise no_records.
Proof.
  apply (empty_records_fail float cpython no_records_doc "cloudflare").
  reflexivity.
Defined.

Lemma domain_name_requirement_witness :
  (exists err,
     domain_name cpython zone_no_domain = Raise err /\
     parse_dns_info cpython zone_no_domain "cloudflare" = Raise err) /\
  parse_dns_info cpython inactive_doc "cloudflare" = Ok [] /\
  parse_dns_info cpython zone "default" =
  parse_dns_info cpython (records_only (VList zone_records)) "default".
Proof.
  pose proof (domain_name_requirement float cpython)
    as (Hlack & _ & Hdefault).
  split; [|split].
  - apply (Hlack zone_no_domain zone_default); reflexivity.
  - apply (Hlack inactive_doc []); reflexivity.
  - apply (Hdefault zone (VList zone_records)). reflexivity.
Defined.

Lemma decode_error_line_witness :
  main cpython broken_file "data.json" "default" =
  ["ERROR: Expecting value: line 1 column 1 (char 0)"].
Proof.
  apply (decode_error_line float cpython broken_file "data.json" "default"
           "not json" "Expecting value: line 1 column 1 (char 0)");
    reflexivity.
Defined.

Lemma incomplete_entry_aborts_witness :
  parse_dns_info cpython no_ttl_doc "cloudflare" = Raise (KeyError "Ttl").
Proof.
  apply (incomplete_entry_aborts float cpython no_ttl_doc "cloudflare"
           [off_record] no_ttl_entry [www_record] "Ttl").
  - reflexivity.
  - repeat constructor.
  - intros _. exists (VStr "example.com"). reflexivity.
  - reflexivity.
Defined.

(** ** Where the specification and the code part *)

(** C1 as stated fails: the document holds the records path, a non-empty
    list and the DomainName path, and [parse_dns_info] does not return.
    Its one entry is an empty mapping. *)
Lemma empty_entry_aborts :
  get_path records_path empty_entry_doc = Some (VList [VDict []]) /\
  is_Some (get_path domain_path empty_entry_doc) /\
  parse_dns_info cpython empty_entry_doc "default"
    = Raise (KeyError "IsActive") /\
  ~ (exists items, parse_dns_info cpython empty_entry_doc "default" = Ok items).
Proof.
  split; [reflexivity|]. split; [eexists; reflexivity|].
  split; [reflexivity|]. intros [items H]. discriminate H.
Qed.

(** C3 as stated fails: an MX record whose Priority is the integer -5
    gets the value "-5 mail.example.com", which does not start with an
    unsigned numeral. *)
Lemma negative_priority_keeps_sign :
  exists item,
    parse_dns_info cpython negative_mx_doc "default" = Ok [item] /\
    type_field item = VStr "MX" /\
    attr "Priority" negative_mx = Some (VInt (-5)) /\
    value_field item = VStr "-5 mail.example.com" /\
    forall s t, unsigned_numeral s = true -> value_field item <> VStr (s +:+ t).
Proof.
  eexists. split; [reflexivity|]. split; [reflexivity|].
  split; [reflexivity|]. split; [reflexivity|].
  intros s t Hs E. destruct s as [|c s]; [discriminate Hs|].
  change (String c s +:+ t) with (String c (s +:+ t)) in E.
  injection E as <- _. discriminate Hs.
Qed.

(** C6 as stated fails: the document does not hold the records path, and
    the exception is a [TypeError], not the one of line 72. *)
Lemma null_result_type_error :
  get_path records_path null_result_doc = None /\
  parse_dns_info cpython null_result_doc "default"
    = Raise (TypeError "argument of type 'NoneType' is not iterable") /\
  parse_dns_info cpython null_result_doc "default" <> Raise unexpected_format.
Proof.
  split; [reflexivity|]. split; [reflexivity|]. discriminate.
Qed.

(** C8 as stated fails: the document lacks the DomainName path, and the
    cloudflare format returns, with no record. *)
Lemma inactive_cloudflare_returns :
  get_path domain_path inactive_doc = None /\
  parse_dns_info cpython inactive_doc "cloudflare" = Ok [].
Proof. split; reflexivity. Qed.

(** C10 as stated fails: the one entry lacks RecordType, Data, Host and
    Ttl, and it is skipped: [parse_dns_info] returns an output, empty. *)
Lemma bare_inactive_skipped :
  get_path records_path inactive_doc = Some (VList [bare_inactive]) /\
  attr "RecordType" bare_inactive = None /\
  attr "Data" bare_inactive = None /\
  attr "Host" bare_inactive = None /\
  attr "Ttl" bare_inactive = None /\
  parse_dns_info cpython inactive_doc "default" = Ok [].
Proof. repeat split. Qed.

End OnSamples.

(** * The further properties on the sample documents *)

Section FurtherOnSamples.

Import CPython Samples MoreSamples AzureCreate.

Lemma other_format_is_default_witness :
  parse_dns_info cpython zone "zonefile" = parse_dns_info cpython zone "default".
Proof.
  apply (other_format_is_default float cpython zone "zonefile"). discriminate.
Defined.

Lemma rest_of_document_ignored_witness :
  parse_dns_info cpython padded_zone "cloudflare" =
  parse_dns_info cpython zone "cloudflare".
Proof.
  apply (rest_of_document_ignored float cpython padded_zone zone "cloudflare");
    [reflexivity | intros _; reflexivity].
Defined.

Lemma other_attributes_ignored_witness :
  parse_dns_info cpython verbose_zone "cloudflare" =
  parse_dns_info cpython zone "cloudflare".
Proof.
  apply (other_attributes_ignored float cpython verbose_zone zone "cloudflare"
           (map verbose_entry zone_records) (map plain_entry zone_records)).
  - reflexivity.
  - reflexivity.
  - repeat (constructor;
            [ intros k Hk; cbn in Hk;
              repeat (destruct Hk as [<-|Hk]; [reflexivity|]); contradiction | ]).
    constructor.
  - intros _. reflexivity.
Defined.

Lemma first_failure_decides_witness :
  parse_dns_info cpython no_ttl_doc "default" = Raise (KeyError "Ttl").
Proof.
  apply (first_failure_decides float cpython no_ttl_doc "default"
           [off_record] (VDict no_ttl_entry) [www_record]).
  - reflexivity.
  - repeat constructor.
  - reflexivity.
Defined.

Lemma entry_not_mapping_fails_witness :
  parse_dns_info cpython text_entry_doc "cloudflare" =
  Raise (TypeError (type_error_msg cpython OpGetItem (VStr "oops"))).
Proof.
  apply (entry_not_mapping_fails float cpython text_entry_doc "cloudflare"
           [www_record; off_record] (VStr "oops") [mx_record]).
  - reflexivity.
  - repeat constructor.
  - discriminate.
Defined.

Lemma unhashable_type_fails_witness :
  parse_dns_info cpython unhashable_doc "default" =
  Raise (TypeError (type_error_msg cpython OpHash (VList [VInt 1]))).
Proof.
  apply (unhashable_type_fails float cpython unhashable_doc "default"
           [www_record] unhashable_entry [mx_record] (VBool true)
           (VList [VInt 1])).
  - reflexivity.
  - repeat constructor.
  - reflexivity.
  - reflexivity.
  - reflexivity.
  - left. eexists. reflexivity.
Defined.

Lemma records_not_a_list_witness :
  parse_dns_info cpython records_text_doc "default" =
  Raise (TypeError (type_error_msg cpython OpGetItem (VStr "n"))).
Proof.
  apply (records_not_a_list float cpython records_text_doc "default"
           (VStr "none")).
  - reflexivity.
  - discriminate.
Defined.

Lemma skipped_iff_witness :
  loop_body cpython zone "cloudflare" bare_inactive = Ok None.
Proof.
  apply (skipped_iff float cpython zone "cloudflare" bare_inactive).
  exists (VBool false). split; [reflexivity|]. left. reflexivity.
Defined.

Lemma returns_iff_witness :
  exists items, parse_dns_info cpython zone "cloudflare" = Ok items.
Proof.
  apply (returns_iff float cpython zone "cloudflare").
  exists zone_records. split; [reflexivity|]. split; [discriminate|].
  repeat constructor.
Defined.

Lemma records_have_five_fields_witness :
  Forall
    (fun item =>
       length item = 5 /\
       (exists t, ttl_field item = VStr t) /\
       class_field item = VStr "IN" /\
       (exists name, type_field item = VStr name /\ In name type_names))
    zone_default.
Proof.
  apply (records_have_five_fields float cpython zone "default" zone_default).
  reflexivity.
Defined.

Lemma output_no_longer_than_input_witness :
  length zone_cloudflare =
    length (List.filter (emits cpython zone "cloudflare") zone_records) /\
  length zone_cloudflare <= length zone_records.
Proof.
  apply (output_no_longer_than_input float cpython zone "cloudflare"
           zone_records zone_cloudflare); reflexivity.
Defined.

Lemma formats_differ_in_host_only_witness :
  exists items',
    parse_dns_info cpython zone "default" = Ok items' /\
    Forall2
      (fun a b =>
         ttl_field a = ttl_field b /\ class_field a = class_field b /\
         type_field a = type_field b /\ value_field a = value_field b)
      zone_cloudflare items'.
Proof.
  apply (formats_differ_in_host_only float cpython zone zone_cloudflare).
  reflexivity.
Defined.

Lemma output_of_joined_lists_witness :
  parse_dns_info cpython zone "cloudflare" =
  Ok (firstn 2 zone_cloudflare ++ skipn 2 zone_cloudflare).
Proof.
  apply (output_of_joined_lists float cpython zone first_half_doc
           second_half_doc "cloudflare" first_half second_half).
  - reflexivity.
  - reflexivity.
  - reflexivity.
  - intros _. split; reflexivity.
  - reflexivity.
  - reflexivity.
Defined.

Lemma text_in_text_out_witness :
  exists fields, zone_cloudflare = map texts fields.
Proof.
  apply (text_in_text_out float cpython zone "cloudflare" zone_records
           zone_cloudflare).
  - reflexivity.
  - reflexivity.
  - repeat (constructor;
            [ intros host data [= <-] [= <-]; split; eexists; reflexivity | ]).
    constructor.
  - intros _ dom [= <-]. eexists. reflexivity.
Defined.



Lemma main_failure_single_line_witness :
  main cpython no_file "data.json" "default" =
  ["ERROR: " +:+
   exn_str cpython
     (OSError "[Errno 2] No such file or directory: 'data.json'")] /\
  main cpython (file_of empty_entry_doc) "data.json" "default" =
  ["ERROR: " +:+ exn_str cpython (KeyError "IsActive")].
Proof.
  split.
  - apply (main_failure_single_line float cpython no_file "data.json" "default").
    left. reflexivity.
  - apply (main_failure_single_line float cpython (file_of empty_entry_doc)
             "data.json" "default").
    right. exists "{...}", empty_entry_doc. repeat split.
Defined.

Lemma storage_names_without_hyphen_witness :
  exists name,
    config_get "storage_mount_name" (get_config "demo-001") = Some name /\
    all_chars (fun c => negb (Ascii.eqb c "-")) name = true.
Proof.
  apply (storage_names_without_hyphen "demo-001" "storage_mount_name").
  cbn. tauto.
Defined.

Lemma project_names_kept_apart_witness : "demo-001" = "demo-001".
Proof.
  apply (project_names_kept_apart "demo-001" "demo-001" "environment_name").
  - cbn. tauto.
  - reflexivity.
Defined.

Lemma storage_account_name_valid_iff_witness :
  valid_storage_account_name (storage_account_name "demo-001") = true.
Proof.
  apply (storage_account_name_valid_iff "demo-001").
  split; [reflexivity | cbn; lia].
Defined.

Lemma storage_account_shared_iff_witness :
  storage_account_name "demo-001" = storage_account_name "de-mo-001".
Proof.
  apply (storage_account_shared_iff "demo-001" "de-mo-001"). reflexivity.
Defined.


(** The project name of the help text gives a valid storage account name;
    one with a capital letter, or with more than twelve letters and
    digits, does not. *)
Example storage_account_names :
  storage_account_name "demo-001" = "synaidemo001stoacct" /\
  valid_storage_account_name (storage_account_name "demo-001") = true /\
  valid_storage_account_name (storage_account_name "Demo-001") = false /\
  valid_storage_account_name (storage_account_name "customer-demo-2024") = false.
Proof. repeat split. Qed.

(** Names kept apart everywhere else, and one storage account. *)
Example shared_storage_account :
  resource_group "demo-001" <> resource_group "demo001" /\
  storage_account_name "demo-001" = storage_account_name "demo001".
Proof. split; [discriminate | reflexivity]. Qed.

(** An empty AZURE_SUBSCRIPTION_ID is taken as not set; the line of the
    [except] clause is not written. *)
Example empty_subscription_id :
  start (C := unit) (inl tt)
    (fun name => if String.eqb name "AZURE_SUBSCRIPTION_ID"
                 then Some EmptyString else Some "secret") =
  (["Error: AZURE_SUBSCRIPTION_ID environment variable not set."], SysExit 1).
Proof. reflexivity. Qed.

End FurtherOnSamples.
